(** * Running Tracker: the run-record service of [server.js]

  A shallow embedding of the Express handlers of [server.js] (list, create,
  delete, health) over an explicit store, together with the part of the
  JavaScript runtime they rely on: IEEE-754 binary64 arithmetic,
  [Math.floor], [Math.round], [Number::toString], [ToNumber], [ToString],
  [ToBoolean], [parseFloat], [parseInt], [String.prototype.padStart] and
  [Date.prototype.toISOString].

  Numbers are [spec_float] at precision 53 and maximal exponent 1024, the
  executable specification of binary64 of the Rocq kernel (no NaN payload,
  like JavaScript).  Strings are sequences of bytes: the UTF-8 text of the
  request body. *)

From Stdlib Require Import ZArith SpecFloat PrimFloat FloatOps Ascii.
From stdpp Require Import list strings pretty.

Open Scope Z_scope.

(** ** Binary64 numbers *)

Module Float64.

Definition num : Type := spec_float.

Definition prec : Z := 53.
Definition emax : Z := 1024.

Definition NaN : num := S754_nan.
Definition Infinity : num := S754_infinity false.

(** The Number value of an integer (round to nearest, ties to even). *)
Definition of_Z (z : Z) : num := binary_normalize prec emax z 0 false.

(** The Number value of [(-1)^neg * p / q] for positive [p] and [q]. *)
Definition of_ratio (neg : bool) (p q : positive) : num :=
  SFdiv prec emax (S754_finite neg p 0) (S754_finite false q 0).

(** The Number value of [(-1)^neg * m * 10^e]. *)
Definition of_decimal (neg : bool) (m e : Z) : num :=
  match m with
  | Zpos p =>
      if 0 <=? e then of_Z (cond_Zopp neg (m * 10 ^ e))
      else of_ratio neg p (Z.to_pos (10 ^ (- e)))
  | _ => S754_zero neg
  end.

Definition div : num -> num -> num := SFdiv prec emax.
Definition sub : num -> num -> num := SFsub prec emax.
Definition mul : num -> num -> num := SFmul prec emax.

(** [x === y] on Numbers. *)
Definition eqb : num -> num -> bool := SFeqb.

Definition is_zero (x : num) : bool :=
  match x with S754_zero _ => true | _ => false end.

Definition is_nan (x : num) : bool :=
  match x with S754_nan => true | _ => false end.

(** Finite and greater than zero. *)
Definition is_positive (x : num) : bool :=
  match x with S754_finite false _ _ => true | _ => false end.

(** [Math.floor]: integral values, zeros, infinities and NaN are returned
    as they are; [m * 2^e] with [e < 0] is shifted down, which rounds
    towards minus infinity. *)
Definition Math_floor (x : num) : num :=
  match x with
  | S754_finite s m e =>
      if 0 <=? e then x
      else
        let n := Z.shiftr (cond_Zopp s (Zpos m)) (- e) in
        if n =? 0 then S754_zero s else of_Z n
  | _ => x
  end.

(** [Math.round]: the nearest integer, ties towards plus infinity, that
    is [floor (x + 1/2)] computed exactly; a zero result keeps the sign
    of [x]. *)
Definition Math_round (x : num) : num :=
  match x with
  | S754_finite s m e =>
      if 0 <=? e then x
      else
        let n := Z.shiftr (2 * cond_Zopp s (Zpos m) + 2 ^ (- e)) (1 - e) in
        if n =? 0 then S754_zero s else of_Z n
  | _ => x
  end.

(** [Number.isInteger]. *)
Definition isInteger (x : num) : bool :=
  match x with
  | S754_finite _ _ _ | S754_zero _ => eqb (Math_floor x) x
  | _ => false
  end.

End Float64.


(** ** Strings and the numeric grammar of the language *)

Module JSString.
Import Float64.

Definition code (c : ascii) : Z := Z.of_N (N_of_ascii c).

(** The value of [c] as a digit of the given radix (letters in either
    case stand for 10 to 35). *)
Definition digit_value (radix : Z) (c : ascii) : option Z :=
  let n := code c in
  let v :=
    if (48 <=? n) && (n <=? 57) then n - 48
    else if (97 <=? n) && (n <=? 122) then n - 87
    else if (65 <=? n) && (n <=? 90) then n - 55
    else radix in
  if v <? radix then Some v else None.

(** The longest prefix of digits: its value, its length and what follows. *)
Fixpoint digits_from (radix acc : Z) (cnt : nat) (s : string) : Z * nat * string :=
  match s with
  | String c s' =>
      match digit_value radix c with
      | Some d => digits_from radix (acc * radix + d) (S cnt) s'
      | None => (acc, cnt, s)
      end
  | EmptyString => (acc, cnt, s)
  end.

Definition digits (radix : Z) (s : string) : Z * nat * string :=
  digits_from radix 0 0%nat s.

(** White space and line terminators, in UTF-8:
    TAB, LF, VT, FF, CR, SP; U+00A0; U+1680, U+2000 to U+200A, U+2028,
    U+2029, U+202F, U+205F, U+3000 and U+FEFF. *)
Definition is_ws1 (a : Z) : bool :=
  ((9 <=? a) && (a <=? 13)) || (a =? 32).

Definition is_ws2 (a b : Z) : bool := (a =? 194) && (b =? 160).

Definition is_ws3 (a b c : Z) : bool :=
  ((a =? 225) && (b =? 154) && (c =? 128))
  || ((a =? 226) && (b =? 128)
      && (((128 <=? c) && (c <=? 138)) || (c =? 168) || (c =? 169) || (c =? 175)))
  || ((a =? 226) && (b =? 129) && (c =? 159))
  || ((a =? 227) && (b =? 128) && (c =? 128))
  || ((a =? 239) && (b =? 187) && (c =? 191)).

(** [TrimString(s, start)]. *)
Fixpoint skip_ws (s : string) : string :=
  match s with
  | String a s1 =>
      if is_ws1 (code a) then skip_ws s1
      else
        match s1 with
        | String b s2 =>
            if is_ws2 (code a) (code b) then skip_ws s2
            else
              match s2 with
              | String c s3 =>
                  if is_ws3 (code a) (code b) (code c) then skip_ws s3 else s
              | EmptyString => s
              end
        | EmptyString => s
        end
  | EmptyString => s
  end.

Definition is_empty (s : string) : bool :=
  match s with EmptyString => true | _ => false end.

Fixpoint strip_prefix (p s : string) : option string :=
  match p, s with
  | EmptyString, _ => Some s
  | String a p', String b s' =>
      if Ascii.eqb a b then strip_prefix p' s' else None
  | _, _ => None
  end.

(** [ExponentPart]: [e] or [E], an optional sign and at least one digit. *)
Definition ExponentPart (s : string) : option (Z * string) :=
  match s with
  | String c r =>
      if (code c =? 101) || (code c =? 69) then
        let '(neg, r1) :=
          match r with
          | String d r' =>
              if code d =? 45 then (true, r')
              else if code d =? 43 then (false, r')
              else (false, r)
          | EmptyString => (false, r)
          end in
        let '(v, n, r2) := digits 10 r1 in
        if (n =? 0)%nat then None else Some (if neg then - v else v, r2)
      else None
  | EmptyString => None
  end.

(** The longest prefix that is a [StrUnsignedDecimalLiteral], as the Number
    it denotes with the given sign, and the rest of the string. *)
Definition StrUnsignedDecimalLiteral (neg : bool) (s : string) : option (num * string) :=
  match strip_prefix "Infinity" s with
  | Some r => Some (S754_infinity neg, r)
  | None =>
      let '(i, ni, r1) := digits 10 s in
      let '(f, nf, r2) :=
        match r1 with
        | String c r => if code c =? 46 then digits 10 r else (0, 0%nat, r1)
        | EmptyString => (0, 0%nat, r1)
        end in
      if (ni =? 0)%nat && (nf =? 0)%nat then None
      else
        let m := i * 10 ^ Z.of_nat nf + f in
        match ExponentPart r2 with
        | Some (e, r3) => Some (of_decimal neg m (e - Z.of_nat nf), r3)
        | None => Some (of_decimal neg m (- Z.of_nat nf), r2)
        end
  end.

Definition StrDecimalLiteral (s : string) : option (num * string) :=
  match s with
  | String c r =>
      if code c =? 45 then StrUnsignedDecimalLiteral true r
      else if code c =? 43 then StrUnsignedDecimalLiteral false r
      else StrUnsignedDecimalLiteral false s
  | EmptyString => None
  end.

(** [0x], [0o] and [0b] literals (no sign). *)
Definition NonDecimalIntegerLiteral (s : string) : option (num * string) :=
  match s with
  | String z (String x r) =>
      let radix :=
        if (code x =? 120) || (code x =? 88) then 16
        else if (code x =? 111) || (code x =? 79) then 8
        else if (code x =? 98) || (code x =? 66) then 2
        else 0 in
      if (code z =? 48) && negb (radix =? 0) then
        let '(v, n, r') := digits radix r in
        if (n =? 0)%nat then None else Some (of_Z v, r')
      else None
  | _ => None
  end.

(** [StringToNumber]: white space, a numeric literal, white space; the
    empty literal is [+0] and anything else is [NaN]. *)
Definition StringToNumber (str : string) : num :=
  let s := skip_ws str in
  if is_empty s then S754_zero false
  else
    let literal :=
      match NonDecimalIntegerLiteral s with
      | Some r => Some r
      | None => StrDecimalLiteral s
      end in
    match literal with
    | Some (x, rest) => if is_empty (skip_ws rest) then x else NaN
    | None => NaN
    end.

(** [parseFloat] of a string. *)
Definition parseFloat_string (inputString : string) : num :=
  match StrDecimalLiteral (skip_ws inputString) with
  | Some (x, _) => x
  | None => NaN
  end.

(** [parseInt] of a string, no radix given. *)
Definition parseInt_string (inputString : string) : num :=
  let s := skip_ws inputString in
  let '(neg, s1) :=
    match s with
    | String c r =>
        if code c =? 45 then (true, r)
        else if code c =? 43 then (false, r)
        else (false, s)
    | EmptyString => (false, s)
    end in
  let '(radix, s2) :=
    match s1 with
    | String z (String x r) =>
        if (code z =? 48) && ((code x =? 120) || (code x =? 88)) then (16, r)
        else (10, s1)
    | _ => (10, s1)
    end in
  let '(v, n, _) := digits radix s2 in
  if (n =? 0)%nat then NaN
  else if v =? 0 then S754_zero neg
  else of_Z (cond_Zopp neg v).

(** *** [Number::toString] (radix 10) *)

(** The decimal digits of a natural number. *)
Definition digit_string (n : Z) : string := pretty (Z.to_N n).

Definition ndigits (n : Z) : Z := Z.of_nat (String.length (digit_string n)).

Fixpoint zeros (n : nat) : string :=
  match n with
  | O => ""
  | S n' => String "0" (zeros n')
  end.

(** [floor (xn / xd * 10^p)]. *)
Definition floor_scaled (xn xd p : Z) : Z :=
  if 0 <=? p then (xn * 10 ^ p) / xd else xn / (xd * 10 ^ (- p)).

(** The [n] with [10^(n-1) <= xn / xd < 10^n]: the digit counts place the
    quotient strictly between [10^(g-1)] and [10^(g+1)]. *)
Definition decimal_exponent (xn xd : Z) : Z :=
  let g := ndigits xn - ndigits xd in
  if 1 <=? floor_scaled xn xd (- g) then g + 1 else g.

(** The [k]-digit decimals next to [x = xn / xd]: [lo * 10^(n-k)] below
    and [(lo + 1) * 10^(n-k)] above.  One that denotes [x] is returned, the
    closer one when both do and the even one on a tie, as [(s, n)] with the
    Number being [s * 10^(n - number of digits of s)]. *)
Definition candidate (x : num) (xn xd n k : Z) : option (Z * Z) :=
  let lo := floor_scaled xn xd (k - n) in
  let hi := lo + 1 in
  let ok_lo := eqb (of_decimal false lo (n - k)) x in
  let ok_hi := eqb (of_decimal false hi (n - k)) x in
  let mid :=
    if 0 <=? n - k then Z.compare ((lo + hi) * 10 ^ (n - k) * xd) (2 * xn)
    else Z.compare ((lo + hi) * xd) (2 * xn * 10 ^ (k - n)) in
  let prefer_hi :=
    match mid with Lt => true | Gt => false | Eq => Z.even hi end in
  let above := if hi =? 10 ^ k then (1, n + 1) else (hi, n) in
  if ok_lo && ok_hi then Some (if prefer_hi then above else (lo, n))
  else if ok_lo then Some (lo, n)
  else if ok_hi then Some above
  else None.

(** The shortest decimal that denotes [x]: the first success among 1 to
    17 digits (17 digits always denote a binary64 number). *)
Definition shortest (x : num) (xn xd n : Z) : Z * Z :=
  default (floor_scaled xn xd (17 - n), n)
    (head (omap (fun k => candidate x xn xd n (Z.of_nat k)) (seq 1 17))).

(** The digits [ds] of [s] and the exponent [n] laid out as the language
    prints them. *)
Definition format_decimal (ds : string) (n : Z) : string :=
  let k := Z.of_nat (String.length ds) in
  if (k <=? n) && (n <=? 21) then ds +:+ zeros (Z.to_nat (n - k))
  else if (0 <? n) && (n <=? 21) then
    String.substring 0 (Z.to_nat n) ds +:+ "." +:+ String.substring (Z.to_nat n) (Z.to_nat (k - n)) ds
  else if (-6 <? n) && (n <=? 0) then "0." +:+ zeros (Z.to_nat (- n)) +:+ ds
  else
    let e := n - 1 in
    let es := (if e <? 0 then "-" else "+") +:+ digit_string (Z.abs e) in
    if k =? 1 then ds +:+ "e" +:+ es
    else String.substring 0 1 ds +:+ "." +:+ String.substring 1 (Z.to_nat (k - 1)) ds +:+ "e" +:+ es.

Definition Number_toString (x : num) : string :=
  match x with
  | S754_nan => "NaN"
  | S754_zero _ => "0"
  | S754_infinity s => if s then "-Infinity" else "Infinity"
  | S754_finite s m e =>
      let xn := if 0 <=? e then Zpos m * 2 ^ e else Zpos m in
      let xd := if 0 <=? e then 1 else 2 ^ (- e) in
      let '(d, n) := shortest (S754_finite false m e) xn xd (decimal_exponent xn xd) in
      (if s then "-" else "") +:+ format_decimal (digit_string d) n
  end.

(** *** [String.prototype.padStart] *)

(** [n] characters taken from [rest] and then from [pad] over and over. *)
Fixpoint filler (n : nat) (pad rest : string) : string :=
  match n with
  | O => ""
  | S n' =>
      match rest with
      | String c r => String c (filler n' pad r)
      | EmptyString =>
          match pad with
          | String c r => String c (filler n' pad r)
          | EmptyString => ""
          end
      end
  end.

Definition padStart (targetLength : nat) (padString s : string) : string :=
  let len := String.length s in
  if (targetLength <=? len)%nat then s
  else filler (targetLength - len) padString padString +:+ s.

End JSString.

(** ** Values of a parsed JSON body and their coercions *)

Module JSValue.
Import Float64 JSString.

(** [VUndefined] is what reading an absent property gives. *)
#[warnings="-register-all"]
Inductive value : Type :=
| VUndefined
| VNull
| VBool (b : bool)
| VNum (x : num)
| VStr (s : string)
| VArr (elems : list value)
| VObj (props : list (string * value)).

Definition has_own (key : string) (props : list (string * value)) : bool :=
  existsb (fun kv => String.eqb (fst kv) key) props.

(** [ToBoolean]. *)
Definition ToBoolean (v : value) : bool :=
  match v with
  | VUndefined | VNull => false
  | VBool b => b
  | VNum x => negb (is_zero x || is_nan x)
  | VStr s => negb (is_empty s)
  | VArr _ | VObj _ => true
  end.

(** [ToString].  An array is joined with commas, [null] and [undefined]
    elements printing as nothing.  A plain object prints through
    [Object.prototype.toString], unless the body gave it a [toString]
    property of its own: that one is not callable and the conversion throws
    a [TypeError], which is [None]. *)
Fixpoint ToString (v : value) : option string :=
  match v with
  | VUndefined => Some "undefined"
  | VNull => Some "null"
  | VBool b => Some (if b then "true" else "false")
  | VNum x => Some (Number_toString x)
  | VStr s => Some s
  | VArr elems =>
      (fix join (l : list value) : option string :=
         match l with
         | [] => Some ""
         | a :: l' =>
             s ← match a with
                 | VUndefined | VNull => Some ""
                 | _ => ToString a
                 end;
             match l' with
             | [] => Some s
             | _ => r ← join l'; Some (s +:+ "," +:+ r)
             end
         end) elems
  | VObj props =>
      if has_own "toString" props then None else Some "[object Object]"
  end.

(** [ToNumber]; arrays and objects go through [ToString]. *)
Definition ToNumber (v : value) : option num :=
  match v with
  | VUndefined => Some NaN
  | VNull => Some (S754_zero false)
  | VBool b => Some (if b then of_Z 1 else S754_zero false)
  | VNum x => Some x
  | VStr s => Some (StringToNumber s)
  | VArr _ | VObj _ => s ← ToString v; Some (StringToNumber s)
  end.

Definition parseFloat (v : value) : option num :=
  s ← ToString v; Some (parseFloat_string s).

Definition parseInt (v : value) : option num :=
  s ← ToString v; Some (parseInt_string s).

End JSValue.

(** ** [Date.prototype.toISOString] *)

Module JSDate.
Import JSString.

(** Year, month and day of the proleptic Gregorian calendar for a number
    of days since 1970-01-01. *)
Definition civil_from_days (days : Z) : Z * Z * Z :=
  let z := days + 719468 in
  let era := z / 146097 in
  let doe := z - era * 146097 in
  let yoe := (doe - doe / 1460 + doe / 36524 - doe / 146096) / 365 in
  let doy := doe - (365 * yoe + yoe / 4 - yoe / 100) in
  let mp := (5 * doy + 2) / 153 in
  let d := doy - (153 * mp + 2) / 5 + 1 in
  let m := if mp <? 10 then mp + 3 else mp - 9 in
  let y := yoe + era * 400 + (if m <=? 2 then 1 else 0) in
  (y, m, d).

Definition pad_number (width : nat) (n : Z) : string :=
  padStart width "0" (digit_string n).

(** The time value [t] is a whole number of milliseconds since the epoch,
    as [new Date()] holds it. *)
Definition toISOString (t : Z) : string :=
  let ms := t mod 86400000 in
  let '(y, m, d) := civil_from_days (t / 86400000) in
  let year :=
    if (0 <=? y) && (y <=? 9999) then pad_number 4 y
    else (if y <? 0 then "-" else "+") +:+ pad_number 6 (Z.abs y) in
  year +:+ "-" +:+ pad_number 2 m +:+ "-" +:+ pad_number 2 d
  +:+ "T" +:+ pad_number 2 (ms / 3600000)
  +:+ ":" +:+ pad_number 2 (ms / 60000 mod 60)
  +:+ ":" +:+ pad_number 2 (ms / 1000 mod 60)
  +:+ "." +:+ pad_number 3 (ms mod 1000) +:+ "Z".

End JSDate.

(** ** The service: [server.js] *)

Import Float64 JSString JSValue.

(** A run record.  [id] is a Number that is always a small whole number
    (1, 2 or an array length plus one, exact in binary64), held as an
    integer; [date] and [location] are stored as they came. *)
Module Run.
Record t : Type := mk {
  id : Z;
  date : value;
  distance : num;
  duration : num;
  pace : string;
  location : value
}.
End Run.

(** The four properties that the create handler reads from [req.body]. *)
Module Body.
Record t : Type := mk {
  date : value;
  distance : value;
  duration : value;
  location : value
}.
End Body.

(** [let runs = [...]]: the in-memory storage at start-up. *)
Definition runs : list Run.t :=
  [ Run.mk 1 (VStr "2024-01-15") (of_decimal false 52 (-1)) (of_Z 28)
      "5:23" (VStr "Central Park");
    Run.mk 2 (VStr "2024-01-17") (of_decimal false 31 (-1)) (of_Z 18)
      "5:48" (VStr "Riverside Trail") ].

(** What a handler sends. *)
Inductive response : Type :=
| RunsJson (body : list Run.t)
| Created (newRun : Run.t)
| BadRequest (error : string)
| NotFound (error : string)
| NoContent
| Healthy (status timestamp : string)
| InternalServerError.

(** The HTTP status: [res.json] alone is 200, an exception that no handler
    catches is answered 500 by the framework. *)
Definition status (r : response) : Z :=
  match r with
  | RunsJson _ => 200
  | Created _ => 201
  | BadRequest _ => 400
  | NotFound _ => 404
  | NoContent => 204
  | Healthy _ _ => 200
  | InternalServerError => 500
  end.

(** [function calculatePace(distance, duration)]; [/] converts its left
    operand and then its right one with [ToNumber]. *)
Definition calculatePace (distance duration : value) : option string :=
  dur ← ToNumber duration;
  dist ← ToNumber distance;
  let paceInMinutes := div dur dist in
  let minutes := Math_floor paceInMinutes in
  let seconds := Math_round (mul (sub paceInMinutes minutes) (of_Z 60)) in
  Some (Number_toString minutes +:+ ":" +:+ padStart 2 "0" (Number_toString seconds)).

(** [app.get('/api/runs', ...)]. *)
Definition get_runs (store : list Run.t) : list Run.t * response :=
  (store, RunsJson store).

(** [location || 'Unknown']. *)
Definition or_default (v d : value) : value :=
  if ToBoolean v then v else d.

(** [app.post('/api/runs', ...)]. *)
Definition post_runs (body : Body.t) (store : list Run.t) : list Run.t * response :=
  let date := Body.date body in
  let distance := Body.distance body in
  let duration := Body.duration body in
  let location := Body.location body in
  if negb (ToBoolean date) || negb (ToBoolean distance) || negb (ToBoolean duration)
  then (store, BadRequest "Missing required fields")
  else
    let newRun :=
      pace ← calculatePace distance duration;
      distance' ← parseFloat distance;
      duration' ← parseInt duration;
      Some (Run.mk (Z.of_nat (length store) + 1) date distance' duration' pace
              (or_default location (VStr "Unknown"))) in
    match newRun with
    | Some newRun => (store ++ [newRun], Created newRun)
    | None => (store, InternalServerError)
    end.

(** [Array.prototype.findIndex]: the first index whose element satisfies
    the predicate, or -1. *)
Fixpoint findIndex {A : Type} (p : A -> bool) (l : list A) : Z :=
  match l with
  | [] => -1
  | x :: l' =>
      if p x then 0
      else let i := findIndex p l' in if i =? -1 then -1 else i + 1
  end.

(** [run.id === id]. *)
Definition id_is (id : num) (run : Run.t) : bool :=
  eqb (of_Z (Run.id run)) id.

(** [app.delete('/api/runs/:id', ...)]; [splice(index, 1)] takes out the
    element at [index]. *)
Definition delete_run (id_param : string) (store : list Run.t) : list Run.t * response :=
  let id := parseInt_string id_param in
  let index := findIndex (id_is id) store in
  if index =? -1 then (store, NotFound "Run not found")
  else (delete (Z.to_nat index) store, NoContent).

(** [app.get('/health', ...)]; [now] is the time value of [new Date()]. *)
Definition get_health (now : Z) (store : list Run.t) : list Run.t * response :=
  (store, Healthy "healthy" (JSDate.toISOString now)).

(** A request to one of the four routes, and the service running through
    a sequence of them. *)
Inductive request : Type :=
| GET_runs
| POST_runs (body : Body.t)
| DELETE_run (id_param : string)
| GET_health (now : Z).

Definition handle (req : request) (store : list Run.t) : list Run.t * response :=
  match req with
  | GET_runs => get_runs store
  | POST_runs body => post_runs body store
  | DELETE_run id_param => delete_run id_param store
  | GET_health now => get_health now store
  end.

Fixpoint serve (reqs : list request) (store : list Run.t) : list Run.t * list response :=
  match reqs with
  | [] => (store, [])
  | req :: reqs' =>
      let '(store', resp) := handle req store in
      let '(store'', resps) := serve reqs' store' in
      (store'', resp :: resps)
  end.

(** The records sent back by the successful creates, in order. *)
Definition created (resps : list response) : list Run.t :=
  omap (fun r => match r with Created newRun => Some newRun | _ => None end) resps.

(** ** The specification's vocabulary *)

(** The pace rule as the specification words it, on Numbers:
    [pace_minutes = duration / distance], [whole_minutes = floor pace_minutes],
    [seconds = round ((pace_minutes - whole_minutes) * 60)], printed as
    whole minutes, a colon, and the seconds padded with zeros to two
    characters. *)
Definition spec_pace (distance duration : num) : string :=
  let pace_minutes := div duration distance in
  let whole_minutes := Math_floor pace_minutes in
  let seconds := Math_round (mul (sub pace_minutes whole_minutes) (of_Z 60)) in
  Number_toString whole_minutes +:+ ":" +:+ padStart 2 "0" (Number_toString seconds).

(** A valid create request: a date that is there, the distance a positive
    number [x], the duration a positive whole number [d]. *)
Definition valid_create (body : Body.t) (x d : num) : Prop :=
  ToBoolean (Body.date body) = true
  /\ Body.distance body = VNum x /\ is_positive x = true
  /\ Body.duration body = VNum d /\ is_positive d = true /\ isInteger d = true.

(** A field that is absent or empty: not sent, [null], or the empty
    string. *)
Definition absent_or_empty (v : value) : Prop :=
  v = VUndefined \/ v = VNull \/ v = VStr "".

(** The values that [!v] rejects. *)
Definition falsy (v : value) : Prop :=
  v = VUndefined \/ v = VNull \/ v = VBool false \/ v = VStr ""
  \/ exists x, v = VNum x /\ (is_zero x = true \/ is_nan x = true).

(** The request of the specification's example. *)
Definition example_body : Body.t :=
  Body.mk (VStr "2024-01-15") (VNum (of_decimal false 52 (-1))) (VNum (of_Z 28))
    (VStr "Central Park").

Definition example_run : Run.t :=
  Run.mk 3 (VStr "2024-01-15") (of_decimal false 52 (-1)) (of_Z 28) "5:23"
    (VStr "Central Park").

(** A create request whose distance is the JSON number 0, one whose
    distance is the string of the digit 0, and one whose seconds round up
    to a full minute. *)
Definition zero_distance_body : Body.t :=
  Body.mk (VStr "2024-01-15") (VNum (S754_zero false)) (VNum (of_Z 28)) VUndefined.

Definition zero_string_body : Body.t :=
  Body.mk (VStr "2024-01-15") (VStr "0") (VNum (of_Z 28)) VUndefined.

Definition sixty_body : Body.t :=
  Body.mk (VStr "2024-01-15") (VNum (of_decimal false 1002 (-3))) (VNum (of_Z 2))
    VUndefined.

(** ** Vocabulary of the further properties *)

(** The two seed records by name. *)
Definition first_seed : Run.t :=
  Run.mk 1 (VStr "2024-01-15") (of_decimal false 52 (-1)) (of_Z 28)
    "5:23" (VStr "Central Park").

Definition second_seed : Run.t :=
  Run.mk 2 (VStr "2024-01-17") (of_decimal false 31 (-1)) (of_Z 18)
    "5:48" (VStr "Riverside Trail").




(** The successful deletes among the answers. *)
Definition no_content (r : response) : bool :=
  match r with NoContent => true | _ => false end.

Definition removals (resps : list response) : nat :=
  length (List.filter no_content resps).

(** Every record's id is its position, counted from 1. *)
Definition sequential (store : list Run.t) : Prop :=
  forall (i : nat) (run : Run.t), store !! i = Some run -> Run.id run = Z.of_nat i + 1.

(** An id from 1 to [bound], and a date and a location that are truthy. *)
Definition well_formed (bound : Z) (run : Run.t) : Prop :=
  1 <= Run.id run <= bound
  /\ ToBoolean (Run.date run) = true /\ ToBoolean (Run.location run) = true.

(** The ids that binary64 holds exactly. *)
Definition exact_ids (store : list Run.t) : Prop :=
  forall run : Run.t, run ∈ store -> 0 < Run.id run < 2 ^ 53.

Definition decimal_digit (c : ascii) : bool := (48 <=? code c) && (code c <=? 57).

Fixpoint all_decimal (s : string) : bool :=
  match s with
  | EmptyString => true
  | String c s' => decimal_digit c && all_decimal s'
  end.

(** Create requests with a distance that has a unit after the number, and
    with a duration that is not whole. *)
Definition unit_body : Body.t :=
  Body.mk (VStr "2024-01-15") (VStr "5.2km") (VNum (of_Z 28)) VUndefined.

Definition fraction_body : Body.t :=
  Body.mk (VStr "2024-01-15") (VNum (of_decimal false 52 (-1)))
    (VNum (of_decimal false 289 (-1))) VUndefined.


(** The records that these requests, the example request after a delete,
    and the request with the string of the digit 0 create. *)
Definition unit_run : Run.t :=
  Run.mk 3 (VStr "2024-01-15") (of_decimal false 52 (-1)) (of_Z 28) "NaN:NaN"
    (VStr "Unknown").

Definition fraction_run : Run.t :=
  Run.mk 3 (VStr "2024-01-15") (of_decimal false 52 (-1)) (of_Z 28) "5:33"
    (VStr "Unknown").

Definition reused_run : Run.t :=
  Run.mk 2 (VStr "2024-01-15") (of_decimal false 52 (-1)) (of_Z 28) "5:23"
    (VStr "Central Park").

Definition zero_string_run : Run.t :=
  Run.mk 3 (VStr "2024-01-15") (S754_zero false) (of_Z 28) "Infinity:NaN"
    (VStr "Unknown").

(** ** Lemmas on [findIndex] and on the coercions *)

Section FindIndex.
Context {A : Type} (p : A -> bool).

Lemma findIndex_lower (l : list A) : -1 <= findIndex p l.
Proof.
  induction l as [|x l IH]; simpl; [lia|].
  destruct (p x); [lia|].
  destruct (Z.eqb_spec (findIndex p l) (-1)); lia.
Qed.

Lemma findIndex_none (l : list A) :
  findIndex p l = -1 <-> (forall x, x ∈ l -> p x = false).
Proof.
  induction l as [|x l IH]; simpl.
  - split; [intros _ y Hy; inversion Hy | reflexivity].
  - destruct (p x) eqn:Hx.
    + split; [lia|]. intros H. specialize (H x (list_elem_of_here x l)). congruence.
    + pose proof (findIndex_lower l) as Hlow.
      destruct (Z.eqb_spec (findIndex p l) (-1)) as [Hi|Hi].
      * split; [|reflexivity]. intros _ y Hy.
        apply elem_of_cons in Hy as [->|Hy]; [exact Hx|].
        apply IH; assumption.
      * split; [lia|]. intros H. exfalso. apply Hi, IH.
        intros y Hy. apply H. right. exact Hy.
Qed.

Lemma findIndex_first (l : list A) :
  findIndex p l <> -1 ->
  exists (i : nat) (x : A),
    findIndex p l = Z.of_nat i /\ l !! i = Some x /\ p x = true
    /\ forall (j : nat) (y : A), (j < i)%nat -> l !! j = Some y -> p y = false.
Proof.
  induction l as [|x l IH]; simpl; [congruence|].
  destruct (p x) eqn:Hx.
  - intros _. exists 0%nat, x. repeat split; [assumption|]. intros j y Hj. lia.
  - destruct (Z.eqb_spec (findIndex p l) (-1)) as [Hi|Hi]; [congruence|].
    intros _. destruct (IH Hi) as (i & y & Hidx & Hlook & Hy & Hbefore).
    exists (S i), y. repeat split.
    + lia.
    + exact Hlook.
    + exact Hy.
    + intros [|j] z Hj Hz; simpl in Hz.
      * congruence.
      * apply (Hbefore j); [lia | exact Hz].
Qed.

End FindIndex.



Lemma ToBoolean_false (v : value) : ToBoolean v = false <-> falsy v.
Proof.
  unfold falsy. split.
  - destruct v as [| |[|]|x|s|l|l]; simpl; intros H; try discriminate; auto.
    + right; right; right; right. exists x. split; [reflexivity|].
      destruct x; simpl in *; auto; discriminate.
    + destruct s; simpl in H; [auto 6 | discriminate].
  - intros [->|[->|[->|[->|(x & -> & [Hx|Hx])]]]]; simpl; try reflexivity.
    + rewrite Hx. reflexivity.
    + rewrite Hx, orb_true_r. reflexivity.
Qed.

(** The create handler, case by case. *)
Lemma post_runs_rejects (body : Body.t) (store : list Run.t) :
  ToBoolean (Body.date body) = false \/ ToBoolean (Body.distance body) = false
  \/ ToBoolean (Body.duration body) = false ->
  post_runs body store = (store, BadRequest "Missing required fields").
Proof.
  intros H. unfold post_runs.
  destruct H as [->|[->| ->]]; simpl; rewrite ?orb_true_r; reflexivity.
Qed.

Lemma post_runs_accepts (body : Body.t) (store : list Run.t) :
  ToBoolean (Body.date body) = true -> ToBoolean (Body.distance body) = true ->
  ToBoolean (Body.duration body) = true ->
  (exists newRun, post_runs body store = (store ++ [newRun], Created newRun)
                  /\ Run.id newRun = Z.of_nat (length store) + 1)
  \/ post_runs body store = (store, InternalServerError).
Proof.
  intros H1 H2 H3. unfold post_runs. rewrite H1, H2, H3. simpl.
  destruct (calculatePace _ _) as [pace|]; simpl; [|right; reflexivity].
  destruct (parseFloat _) as [dist|]; simpl; [|right; reflexivity].
  destruct (parseInt _) as [dur|]; simpl; [|right; reflexivity].
  left. eexists. split; reflexivity.
Qed.

Lemma post_runs_cases (body : Body.t) (store : list Run.t) :
  post_runs body store = (store, BadRequest "Missing required fields")
  \/ post_runs body store = (store, InternalServerError)
  \/ exists newRun, post_runs body store = (store ++ [newRun], Created newRun)
                    /\ Run.id newRun = Z.of_nat (length store) + 1.
Proof.
  destruct (ToBoolean (Body.date body)) eqn:H1;
    [|left; apply post_runs_rejects; auto].
  destruct (ToBoolean (Body.distance body)) eqn:H2;
    [|left; apply post_runs_rejects; auto].
  destruct (ToBoolean (Body.duration body)) eqn:H3;
    [|left; apply post_runs_rejects; auto].
  destruct (post_runs_accepts body store H1 H2 H3) as [H|H]; auto.
Qed.

Lemma post_runs_created (body : Body.t) (store store' : list Run.t) (newRun : Run.t) :
  post_runs body store = (store', Created newRun) ->
  store' = store ++ [newRun] /\ Run.id newRun = Z.of_nat (length store) + 1
  /\ ToBoolean (Body.date body) = true /\ ToBoolean (Body.distance body) = true
  /\ ToBoolean (Body.duration body) = true.
Proof.
  intros H.
  destruct (ToBoolean (Body.date body)) eqn:H1;
    [|rewrite post_runs_rejects in H by auto; discriminate].
  destruct (ToBoolean (Body.distance body)) eqn:H2;
    [|rewrite post_runs_rejects in H by auto; discriminate].
  destruct (ToBoolean (Body.duration body)) eqn:H3;
    [|rewrite post_runs_rejects in H by auto; discriminate].
  destruct (post_runs_accepts body store H1 H2 H3) as [(r & Hr & Hid)|Hr];
    rewrite Hr in H; [|discriminate].
  injection H as <- <-. auto.
Qed.

(** The delete handler, case by case. *)
Lemma delete_run_cases (id_param : string) (store : list Run.t) :
  ((forall run, run ∈ store -> id_is (parseInt_string id_param) run = false)
   /\ delete_run id_param store = (store, NotFound "Run not found"))
  \/ exists (i : nat) (run : Run.t),
       store !! i = Some run
       /\ id_is (parseInt_string id_param) run = true
       /\ (forall (j : nat) (run' : Run.t), (j < i)%nat -> store !! j = Some run' ->
             id_is (parseInt_string id_param) run' = false)
       /\ delete_run id_param store = (delete i store, NoContent).
Proof.
  unfold delete_run.
  destruct (Z.eqb_spec (findIndex (id_is (parseInt_string id_param)) store) (-1)) as [Hi|Hi].
  - left. split; [|reflexivity]. apply findIndex_none. exact Hi.
  - right. destruct (findIndex_first _ _ Hi) as (i & run & Hidx & Hlook & Hrun & Hbefore).
    exists i, run. rewrite Hidx, Nat2Z.id. auto.
Qed.

(** ** The claims *)



(** C2, as stated, fails: a create request whose distance is the JSON
    number 0 is answered 400 with the missing-field error although its
    date, distance and duration are all there and none is empty. *)
Lemma missing_field_without_absent_or_empty :
  post_runs zero_distance_body runs = (runs, BadRequest "Missing required fields")
  /\ status (snd (post_runs zero_distance_body runs)) = 400
  /\ ~ (absent_or_empty (Body.date zero_distance_body)
        \/ absent_or_empty (Body.distance zero_distance_body)
        \/ absent_or_empty (Body.duration zero_distance_body)).
Proof.
  split; [reflexivity|]. split; [reflexivity|].
  unfold absent_or_empty. simpl.
  intros [[H|[H|H]]|[[H|[H|H]]|[H|[H|H]]]]; discriminate H.
Qed.

(** C2, amended: a create request fails with the missing-field error
    (status 400) if and only if its date, distance or duration is falsy,
    that is absent, [null], [false], the empty string, or the number zero
    or NaN; so it fails whenever one of them is absent or empty; and on
    that failure the store is unchanged. *)
Theorem missing_field_iff_falsy (body : Body.t) (store : list Run.t) :
  (snd (post_runs body store) = BadRequest "Missing required fields"
   <-> falsy (Body.date body) \/ falsy (Body.distance body) \/ falsy (Body.duration body))
  /\ (absent_or_empty (Body.date body) \/ absent_or_empty (Body.distance body)
      \/ absent_or_empty (Body.duration body) ->
      snd (post_runs body store) = BadRequest "Missing required fields")
  /\ (status (snd (post_runs body store)) = 400
      <-> snd (post_runs body store) = BadRequest "Missing required fields")
  /\ (status (snd (post_runs body store)) = 400 -> fst (post_runs body store) = store).
Proof.
  assert (Hempty : forall v, absent_or_empty v -> ToBoolean v = false).
  { intros v [->|[->| ->]]; reflexivity. }
  split; [|split].
  2:{ intros H. rewrite post_runs_rejects; [reflexivity|].
      destruct H as [H|[H|H]]; apply Hempty in H; auto. }
  all: rewrite <- ?ToBoolean_false.
  - split.
    + intros H.
      destruct (ToBoolean (Body.date body)) eqn:H1; auto.
      destruct (ToBoolean (Body.distance body)) eqn:H2; auto.
      destruct (ToBoolean (Body.duration body)) eqn:H3; auto.
      destruct (post_runs_accepts body store H1 H2 H3) as [(r & Hr & _)|Hr];
        rewrite Hr in H; discriminate H.
    + intros F. rewrite (post_runs_rejects body store F). reflexivity.
  - destruct (post_runs_cases body store) as [H|[H|(r & H & _)]];
      rewrite H; simpl; repeat split; auto; discriminate.
Qed.

Lemma missing_field_iff_falsy_witness :
  status (snd (post_runs zero_distance_body runs)) = 400
  /\ fst (post_runs zero_distance_body runs) = runs.
Proof.
  assert (H : status (snd (post_runs zero_distance_body runs)) = 400).
  { reflexivity. }
  split; [exact H|].
  exact (proj2 (proj2 (proj2 (missing_field_iff_falsy zero_distance_body runs))) H).
Defined.

(** C3: every successful create gives the new run the id (length of the
    store at that moment) + 1 and appends it; and deleting the first of
    the two seed records (not the last one) and then creating a run leaves
    two records with the same id in the store. *)
Theorem create_id_is_length_plus_one :
  (forall (body : Body.t) (store store' : list Run.t) (newRun : Run.t),
      post_runs body store = (store', Created newRun) ->
      Run.id newRun = Z.of_nat (length store) + 1 /\ store' = store ++ [newRun])
  /\ exists (id_param : string) (body : Body.t) (store1 store2 : list Run.t) (a b : Run.t),
       delete_run id_param runs = (store1, NoContent)
       /\ store1 = delete 0%nat runs /\ (0 < length runs - 1)%nat
       /\ post_runs body store1 = (store2, Created b)
       /\ serve [DELETE_run id_param; POST_runs body] runs = (store2, [NoContent; Created b])
       /\ store2 !! 0%nat = Some a /\ store2 !! 1%nat = Some b
       /\ Run.id a = Run.id b.
Proof.
  split.
  - intros body store store' newRun H.
    apply post_runs_created in H as (-> & Hid & _). auto.
  - exists "1", example_body. do 4 eexists.
    split; [vm_compute; reflexivity|].
    split; [reflexivity|].
    split; [simpl; lia|].
    split; [vm_compute; reflexivity|].
    split; [vm_compute; reflexivity|].
    split; [reflexivity|].
    split; reflexivity.
Qed.

Lemma create_id_is_length_plus_one_witness :
  post_runs example_body runs = (runs ++ [example_run], Created example_run)
  /\ Run.id example_run = Z.of_nat (length runs) + 1
  /\ runs ++ [example_run] = runs ++ [example_run].
Proof.
  assert (H : post_runs example_body runs = (runs ++ [example_run], Created example_run)).
  { vm_compute. reflexivity. }
  split; [exact H|].
  exact (proj1 create_id_is_length_plus_one example_body runs _ example_run H).
Defined.

(** C4: when the id of a delete request matches a record of the store,
    the handler takes out the first record whose id matches and no other,
    the records before and after it stay in their order, the store is one
    record shorter, and the answer is 204 without a body. *)
Theorem delete_removes_first_match (id_param : string) (store : list Run.t) :
  (exists run : Run.t, run ∈ store /\ id_is (parseInt_string id_param) run = true) ->
  exists (i : nat) (run : Run.t),
    store !! i = Some run
    /\ id_is (parseInt_string id_param) run = true
    /\ (forall (j : nat) (run' : Run.t), (j < i)%nat -> store !! j = Some run' ->
          id_is (parseInt_string id_param) run' = false)
    /\ delete_run id_param store = (take i store ++ drop (S i) store, NoContent)
    /\ store = take i store ++ run :: drop (S i) store
    /\ S (length (fst (delete_run id_param store))) = length store
    /\ status (snd (delete_run id_param store)) = 204.
Proof.
  intros (run0 & Hin & Hrun0).
  destruct (delete_run_cases id_param store)
    as [[Hnone _]|(i & run & Hlook & Hrun & Hbefore & Hdel)].
  - rewrite (Hnone run0 Hin) in Hrun0. discriminate Hrun0.
  - exists i, run. rewrite Hdel. simpl.
    repeat apply conj; auto.
    + rewrite delete_take_drop. reflexivity.
    + rewrite <- (take_drop_middle store i run Hlook) at 1. reflexivity.
    + rewrite length_delete by eauto.
      apply lookup_lt_Some in Hlook. lia.
Qed.

Lemma delete_removes_first_match_witness :
  exists (i : nat) (run : Run.t),
    runs !! i = Some run
    /\ id_is (parseInt_string "2") run = true
    /\ (forall (j : nat) (run' : Run.t), (j < i)%nat -> runs !! j = Some run' ->
          id_is (parseInt_string "2") run' = false)
    /\ delete_run "2" runs = (take i runs ++ drop (S i) runs, NoContent)
    /\ runs = take i runs ++ run :: drop (S i) runs
    /\ S (length (fst (delete_run "2" runs))) = length runs
    /\ status (snd (delete_run "2" runs)) = 204.
Proof.
  apply (delete_removes_first_match "2" runs).
  exists (Run.mk 2 (VStr "2024-01-17") (of_decimal false 31 (-1)) (of_Z 18)
            "5:48" (VStr "Riverside Trail")).
  split; [|vm_compute; reflexivity].
  unfold runs. apply list_elem_of_further, list_elem_of_here.
Defined.

(** C5: when the id of a delete request matches no record of the store,
    the handler answers 404 with the not-found error and the store is the
    same list: same length, same records, same order. *)
Theorem delete_missing_is_not_found (id_param : string) (store : list Run.t) :
  (forall run : Run.t, run ∈ store -> id_is (parseInt_string id_param) run = false) ->
  delete_run id_param store = (store, NotFound "Run not found")
  /\ status (snd (delete_run id_param store)) = 404
  /\ fst (delete_run id_param store) = store.
Proof.
  intros Hnone.
  destruct (delete_run_cases id_param store)
    as [[_ Hdel]|(i & run & Hlook & Hrun & _)].
  - rewrite Hdel. auto.
  - rewrite (Hnone run) in Hrun; [discriminate Hrun|].
    apply list_elem_of_lookup. eauto.
Qed.

Lemma delete_missing_is_not_found_witness :
  delete_run "7" runs = (runs, NotFound "Run not found")
  /\ status (snd (delete_run "7" runs)) = 404
  /\ fst (delete_run "7" runs) = runs.
Proof.
  apply (delete_missing_is_not_found "7" runs).
  intros run Hin. unfold runs in Hin.
  apply elem_of_cons in Hin as [->|Hin]; [vm_compute; reflexivity|].
  apply elem_of_cons in Hin as [->|Hin]; [vm_compute; reflexivity|].
  inversion Hin.
Defined.

(** C6: the list handler always answers 200 with the whole store, in
    insertion order, and leaves the store as it is; listing right after
    two successful creates returns the store followed by the two created
    records in creation order, their ids being length + 1 and length + 2,
    hence distinct. *)
Theorem list_returns_the_collection :
  (forall store : list Run.t,
      get_runs store = (store, RunsJson store)
      /\ status (snd (get_runs store)) = 200)
  /\ (forall (store store1 store2 : list Run.t) (body1 body2 : Body.t) (run1 run2 : Run.t),
        post_runs body1 store = (store1, Created run1) ->
        post_runs body2 store1 = (store2, Created run2) ->
        serve [POST_runs body1; POST_runs body2; GET_runs] store
        = (store ++ [run1; run2],
           [Created run1; Created run2; RunsJson (store ++ [run1; run2])])
        /\ Run.id run1 = Z.of_nat (length store) + 1
        /\ Run.id run2 = Z.of_nat (length store) + 2
        /\ Run.id run1 <> Run.id run2).
Proof.
  split; [intros store; split; reflexivity|].
  intros store store1 store2 body1 body2 run1 run2 H1 H2.
  pose proof (post_runs_created _ _ _ _ H1) as (-> & Hid1 & _).
  pose proof (post_runs_created _ _ _ _ H2) as (-> & Hid2 & _).
  rewrite length_app in Hid2. simpl in Hid2.
  simpl. rewrite H1, H2. rewrite <- app_assoc. simpl.
  repeat apply conj; [reflexivity|lia..].
Qed.

Lemma list_returns_the_collection_witness :
  serve [POST_runs example_body; POST_runs sixty_body; GET_runs] runs
  = (runs ++ [example_run; Run.mk 4 (VStr "2024-01-15") (of_decimal false 1002 (-3))
                             (of_Z 2) "1:60" (VStr "Unknown")],
     [Created example_run;
      Created (Run.mk 4 (VStr "2024-01-15") (of_decimal false 1002 (-3)) (of_Z 2)
                 "1:60" (VStr "Unknown"));
      RunsJson (runs ++ [example_run;
                         Run.mk 4 (VStr "2024-01-15") (of_decimal false 1002 (-3))
                           (of_Z 2) "1:60" (VStr "Unknown")])])
  /\ Run.id example_run = Z.of_nat (length runs) + 1.
Proof.
  assert (H1 : post_runs example_body runs = (runs ++ [example_run], Created example_run)).
  { vm_compute. reflexivity. }
  assert (H2 : post_runs sixty_body (runs ++ [example_run])
               = ((runs ++ [example_run])
                  ++ [Run.mk 4 (VStr "2024-01-15") (of_decimal false 1002 (-3))
                        (of_Z 2) "1:60" (VStr "Unknown")],
                  Created (Run.mk 4 (VStr "2024-01-15") (of_decimal false 1002 (-3))
                             (of_Z 2) "1:60" (VStr "Unknown")))).
  { vm_compute. reflexivity. }
  pose proof (proj2 list_returns_the_collection runs _ _ example_body sixty_body _ _ H1 H2)
    as (Hserve & Hid & _).
  split; [exact Hserve | exact Hid].
Defined.

(** C7: no handler changes a record that is in the store.  One request
    leaves the store as it was, or appends the record it answers with, or
    takes out one record; so after any sequence of requests the store is a
    subsequence of the records it started with (the two seed records at
    start-up) followed by the records the creates answered with, each one
    field for field as it was when it was inserted. *)
Theorem records_are_never_modified :
  (forall (req : request) (store : list Run.t),
      fst (handle req store) = store
      \/ (exists newRun : Run.t,
            snd (handle req store) = Created newRun
            /\ fst (handle req store) = store ++ [newRun])
      \/ (exists i : nat,
            snd (handle req store) = NoContent
            /\ fst (handle req store) = delete i store))
  /\ (forall (reqs : list request) (store : list Run.t),
        sublist (fst (serve reqs store)) (store ++ created (snd (serve reqs store))))
  /\ (forall reqs : list request,
        sublist (fst (serve reqs runs)) (runs ++ created (snd (serve reqs runs)))).
Proof.
  assert (Hstep : forall (req : request) (store : list Run.t),
      fst (handle req store) = store
      \/ (exists newRun : Run.t,
            snd (handle req store) = Created newRun
            /\ fst (handle req store) = store ++ [newRun])
      \/ (exists i : nat,
            snd (handle req store) = NoContent
            /\ fst (handle req store) = delete i store)).
  { intros [|body|id_param|now] store; simpl; auto.
    - destruct (post_runs_cases body store) as [H|[H|(r & H & _)]]; rewrite H; simpl; eauto.
    - destruct (delete_run_cases id_param store) as [[_ H]|(i & run & _ & _ & _ & H)];
        rewrite H; simpl; eauto. }
  assert (Htrace : forall (reqs : list request) (store : list Run.t),
      sublist (fst (serve reqs store)) (store ++ created (snd (serve reqs store)))).
  { induction reqs as [|req reqs IH]; intros store; simpl.
    - rewrite app_nil_r. reflexivity.
    - specialize (Hstep req store).
      destruct (handle req store) as [store1 resp] eqn:Hreq.
      specialize (IH store1).
      destruct (serve reqs store1) as [store2 resps] eqn:Hreqs.
      simpl in *. etransitivity; [exact IH|].
      destruct Hstep as [->|[(r & -> & ->)|(i & -> & ->)]].
      + unfold created. simpl. destruct resp; simpl; try reflexivity.
        apply sublist_app; [reflexivity|]. apply sublist_cons. reflexivity.
      + unfold created. simpl. rewrite <- app_assoc. reflexivity.
      + unfold created. simpl. apply sublist_app; [|reflexivity].
        apply sublist_delete. }
  repeat apply conj; auto.
Qed.


(** C9: a create request whose distance or duration is the JSON number 0
    is answered 400 with the missing-field error and nothing is appended,
    although the field is there and not empty.  So whenever a request
    gets past the check with a distance that converts to zero, the
    distance is a truthy value and not a number (it is a string or an
    array): the division by zero is reached only that way, for instance
    with the string of the digit 0, which gives the pace Infinity:NaN. *)
Theorem zero_number_counts_as_missing :
  (forall (body : Body.t) (store : list Run.t) (s : bool),
      Body.distance body = VNum (S754_zero s) \/ Body.duration body = VNum (S754_zero s) ->
      post_runs body store = (store, BadRequest "Missing required fields")
      /\ ~ absent_or_empty (VNum (S754_zero s)))
  /\ (forall (body : Body.t) (store : list Run.t) (dist : num),
        status (snd (post_runs body store)) <> 400 ->
        ToNumber (Body.distance body) = Some dist -> is_zero dist = true ->
        ToBoolean (Body.distance body) = true
        /\ (forall x : num, Body.distance body <> VNum x)
        /\ ((exists s : string, Body.distance body = VStr s)
            \/ (exists l : list value, Body.distance body = VArr l)))
  /\ ToBoolean (Body.distance zero_string_body) = true
  /\ ToNumber (Body.distance zero_string_body) = Some (S754_zero false)
  /\ exists newRun : Run.t,
       post_runs zero_string_body runs = (runs ++ [newRun], Created newRun)
       /\ Run.pace newRun = "Infinity:NaN".
Proof.
  repeat apply conj.
  - intros body store s H. split.
    + apply post_runs_rejects. destruct H as [-> | ->]; auto.
    + unfold absent_or_empty. intros [H'|[H'|H']]; discriminate H'.
  - intros body store dist Hstatus Hnum Hzero.
    assert (Htruthy : ToBoolean (Body.distance body) = true).
    { destruct (ToBoolean (Body.distance body)) eqn:E; [reflexivity|].
      exfalso. apply Hstatus.
      rewrite (post_runs_rejects body store) by auto. reflexivity. }
    split; [exact Htruthy|].
    destruct (Body.distance body) as [| |[|]|x|s|l|props];
      try discriminate Htruthy.
    + injection Hnum as <-. discriminate Hzero.
    + simpl in Hnum, Htruthy. injection Hnum as ->.
      rewrite Hzero in Htruthy. discriminate Htruthy.
    + split; [discriminate | eauto].
    + split; [discriminate | eauto].
    + exfalso. simpl in Hnum. destruct (has_own "toString" props); [discriminate Hnum|].
      injection Hnum as <-. discriminate Hzero.
  - reflexivity.
  - vm_compute. reflexivity.
  - eexists. split; [vm_compute; reflexivity | reflexivity].
Qed.

Lemma zero_number_counts_as_missing_witness :
  post_runs zero_distance_body runs = (runs, BadRequest "Missing required fields")
  /\ ~ absent_or_empty (VNum (S754_zero false)).
Proof.
  apply (proj1 zero_number_counts_as_missing zero_distance_body runs false).
  left. reflexivity.
Defined.

(** C10: the request with distance 1.002 and duration 2 is valid, its
    seconds round to 60, and the pace the handler stores is 1:60: the
    seconds are not carried into the minutes. *)
Theorem pace_seconds_can_be_sixty :
  valid_create sixty_body (of_decimal false 1002 (-3)) (of_Z 2)
  /\ (let paceInMinutes := div (of_Z 2) (of_decimal false 1002 (-3)) in
      Math_floor paceInMinutes = of_Z 1
      /\ Math_round (mul (sub paceInMinutes (Math_floor paceInMinutes)) (of_Z 60))
         = of_Z 60)
  /\ exists newRun : Run.t,
       post_runs sixty_body runs = (runs ++ [newRun], Created newRun)
       /\ Run.pace newRun = "1:60".
Proof.
  split; [unfold valid_create; repeat apply conj; vm_compute; reflexivity|].
  split; [split; vm_compute; reflexivity|].
  eexists. split; [vm_compute; reflexivity | reflexivity].
Qed.

(** ** The runtime model on known values *)

(** The pace stored with each seed record is what [calculatePace] gives
    for its distance and duration. *)
Example seed_paces_are_calculated :
  Forall (fun run => calculatePace (VNum (Run.distance run)) (VNum (Run.duration run))
                     = Some (Run.pace run)) runs.
Proof. repeat constructor; vm_compute; reflexivity. Qed.

Example Number_toString_known_values :
  Number_toString (of_decimal false 52 (-1)) = "5.2"
  /\ Number_toString (of_Z 28) = "28"
  /\ Number_toString (of_decimal false 1 21) = "1e+21"
  /\ Number_toString (of_decimal false 1 20) = "100000000000000000000"
  /\ Number_toString (of_decimal false 1 (-6)) = "0.000001"
  /\ Number_toString (of_decimal false 1 (-7)) = "1e-7"
  /\ Number_toString (of_decimal false 5 (-324)) = "5e-324"
  /\ Number_toString (of_decimal true 125 (-1)) = "-12.5"
  /\ Number_toString (div (of_Z 1) (of_Z 3)) = "0.3333333333333333"
  /\ Number_toString (S754_zero true) = "0"
  /\ Number_toString NaN = "NaN"
  /\ Number_toString (div (of_Z 1) (S754_zero true)) = "-Infinity".
Proof. repeat apply conj; vm_compute; reflexivity. Qed.

(** Whole numbers from 0 to 600, the range of minutes and seconds of an
    ordinary run, print as their decimal digits. *)
Example Number_toString_small_integers :
  forallb (fun n => String.eqb (Number_toString (of_Z n)) (digit_string n))
    (seqZ 0 601) = true.
Proof. vm_compute. reflexivity. Qed.

Example Math_known_values :
  Math_floor (of_decimal false 538 (-2)) = of_Z 5
  /\ Math_floor (of_decimal true 5 (-1)) = of_Z (-1)
  /\ Math_floor (of_decimal false 5 (-1)) = S754_zero false
  /\ Math_round (of_decimal false 25 (-1)) = of_Z 3
  /\ Math_round (of_decimal true 25 (-1)) = of_Z (-2)
  /\ Math_round (of_decimal true 5 (-1)) = S754_zero true
  /\ Math_round (of_decimal false 49 (-2)) = S754_zero false
  /\ Math_round NaN = NaN
  /\ Math_floor Infinity = Infinity.
Proof. repeat apply conj; vm_compute; reflexivity. Qed.

Example coercion_known_values :
  ToNumber (VStr "") = Some (S754_zero false)
  /\ ToNumber (VStr " 5.2 ") = Some (of_decimal false 52 (-1))
  /\ ToNumber (VStr "0x1F") = Some (of_Z 31)
  /\ ToNumber (VStr "12km") = Some NaN
  /\ ToNumber (VArr []) = Some (S754_zero false)
  /\ ToNumber (VArr [VNum (of_Z 7)]) = Some (of_Z 7)
  /\ ToNumber (VObj []) = Some NaN
  /\ ToNumber (VObj [("toString", VNull)]) = None
  /\ ToNumber (VBool true) = Some (of_Z 1)
  /\ ToNumber VUndefined = Some NaN
  /\ parseFloat (VStr "5.2km") = Some (of_decimal false 52 (-1))
  /\ parseFloat (VStr "km") = Some NaN
  /\ parseInt (VStr "28.9") = Some (of_Z 28)
  /\ parseInt (VStr "0x1f") = Some (of_Z 31)
  /\ parseInt (VNum (of_decimal false 1 21)) = Some (of_Z 1)
  /\ parseInt (VStr "-0") = Some (S754_zero true)
  /\ padStart 2 "0" "7" = "07"
  /\ padStart 2 "0" "NaN" = "NaN".
Proof. repeat apply conj; vm_compute; reflexivity. Qed.

Example toISOString_known_values :
  JSDate.toISOString 0 = "1970-01-01T00:00:00.000Z"
  /\ JSDate.toISOString 1705276800123 = "2024-01-15T00:00:00.123Z"
  /\ JSDate.toISOString (-1) = "1969-12-31T23:59:59.999Z"
  /\ JSDate.toISOString 951782400000 = "2000-02-29T00:00:00.000Z"
  /\ JSDate.toISOString 8640000000000000 = "+275760-09-13T00:00:00.000Z".
Proof. repeat apply conj; vm_compute; reflexivity. Qed.

(** The model's arithmetic on the two requests of the claims gives what
    the machine's binary64 unit gives. *)
#[warnings="-inexact-float"]
Example pace_arithmetic_on_primitive_floats :
  Prim2SF 5.2 = of_decimal false 52 (-1)
  /\ Prim2SF 1.002 = of_decimal false 1002 (-3)
  /\ Prim2SF (28 / 5.2) = div (of_Z 28) (of_decimal false 52 (-1))
  /\ Prim2SF ((28 / 5.2 - 5) * 60)
     = mul (sub (div (of_Z 28) (of_decimal false 52 (-1))) (of_Z 5)) (of_Z 60)
  /\ Prim2SF (2 / 1.002) = div (of_Z 2) (of_decimal false 1002 (-3))
  /\ Prim2SF ((2 / 1.002 - 1) * 60)
     = mul (sub (div (of_Z 2) (of_decimal false 1002 (-3))) (of_Z 1)) (of_Z 60).
Proof. repeat apply conj; vm_compute; reflexivity. Qed.

(** Creating with fields that are strings, as a form sends them, goes
    through the same coercions. *)
Example create_from_strings :
  post_runs (Body.mk (VStr "2024-01-15") (VStr "5.2") (VStr "28") (VStr "")) runs
  = (runs ++ [Run.mk 3 (VStr "2024-01-15") (of_decimal false 52 (-1)) (of_Z 28)
                "5:23" (VStr "Unknown")],
     Created (Run.mk 3 (VStr "2024-01-15") (of_decimal false 52 (-1)) (of_Z 28)
                "5:23" (VStr "Unknown"))).
Proof. vm_compute. reflexivity. Qed.

(** ** Further properties of the handlers *)

(** *** Whole numbers as Numbers *)

Lemma digits2_pos_size (p : positive) : digits2_pos p = Pos.size p.
Proof. induction p; simpl; congruence. Qed.

Lemma digits2_pos_iter (p k : positive) :
  digits2_pos (Pos.iter xO p k) = (digits2_pos p + k)%positive.
Proof.
  induction k as [|k IH] using Pos.peano_ind.
  - simpl. lia.
  - rewrite Pos.iter_succ. simpl. rewrite IH. lia.
Qed.

Lemma digits2_pos_bound (p : positive) :
  Zpos p < 2 ^ 53 -> Zpos (digits2_pos p) <= 53.
Proof.
  intros H. rewrite digits2_pos_size.
  destruct (Z_le_gt_dec (Zpos (Pos.size p)) 53) as [Hle|Hgt]; [exact Hle|].
  exfalso. pose proof (Pos.size_le p) as Hs.
  apply Pos2Z.pos_le_pos in Hs. rewrite Pos2Z.inj_pow in Hs.
  assert (H54 : 2 ^ 54 <= 2 ^ Zpos (Pos.size p)) by (apply Z.pow_le_mono_r; lia).
  lia.
Qed.

(** The Number of a positive integer below 2^53 is that integer shifted up
    to 53 bits, with the matching negative exponent: no rounding. *)
Lemma of_Z_small (p : positive) :
  Zpos p < 2 ^ 53 ->
  of_Z (Zpos p)
  = match 53 - Zpos (digits2_pos p) with
    | Zpos k => S754_finite false (Pos.iter xO p k) (Zneg k)
    | _ => S754_finite false p 0
    end.
Proof.
  intros Hp. pose proof (digits2_pos_bound p Hp) as Hd.
  unfold of_Z, binary_normalize, binary_round.
  assert (Hfexp : fexp prec emax (Zpos (digits2_pos p) + 0) = Zpos (digits2_pos p) - 53).
  { unfold fexp, emin, prec, emax. lia. }
  rewrite Hfexp. unfold shl_align.
  destruct (53 - Zpos (digits2_pos p)) as [|k|k] eqn:Hk; [| |lia].
  - replace (Zpos (digits2_pos p) - 53 - 0) with 0 by lia.
    unfold binary_round_aux, shr_fexp.
    assert (Hn : fexp prec emax (Zdigits2 (Zpos p) + 0) - 0 = 0).
    { unfold fexp, emin, prec, emax, Zdigits2. lia. }
    rewrite Hn. unfold shr_record_of_loc, shr. simpl shr_m. simpl loc_of_shr_record.
    unfold round_nearest_even. rewrite Hn. simpl. reflexivity.
  - replace (Zpos (digits2_pos p) - 53 - 0) with (Zneg k) by lia.
    unfold binary_round_aux, shr_fexp.
    assert (Hn : fexp prec emax (Zdigits2 (Zpos (Pos.iter xO p k)) + (Zpos (digits2_pos p) - 53))
                 - (Zpos (digits2_pos p) - 53) = 0).
    { unfold fexp, emin, prec, emax, Zdigits2. rewrite digits2_pos_iter. lia. }
    rewrite Hn. unfold shr_record_of_loc, shr. simpl shr_m. simpl loc_of_shr_record.
    unfold round_nearest_even. rewrite Hn. simpl shr_m.
    replace (Zpos (digits2_pos p) - 53) with (Zneg k) by lia.
    unfold prec, emax. simpl. reflexivity.
Qed.

Lemma eqb_finite (m1 m2 : positive) (e1 e2 : Z) :
  eqb (S754_finite false m1 e1) (S754_finite false m2 e2) = true <-> e1 = e2 /\ m1 = m2.
Proof.
  unfold eqb, SFeqb, SFcompare.
  destruct (Z.compare_spec e1 e2) as [He|He|He].
  - change (Pos.compare_cont Eq m1 m2) with (Pos.compare m1 m2).
    destruct (Pos.compare_spec m1 m2) as [Hm|Hm|Hm]; split; intros H;
      try discriminate H; auto; destruct H as [_ H]; lia.
  - split; [discriminate|]. intros [H _]. lia.
  - split; [discriminate|]. intros [H _]. lia.
Qed.

Lemma iter_xO_inj (p q k : positive) : Pos.iter xO p k = Pos.iter xO q k -> p = q.
Proof.
  induction k as [|k IH] using Pos.peano_ind.
  - simpl. congruence.
  - rewrite !Pos.iter_succ. intros H. apply IH. congruence.
Qed.

(** On whole numbers from 1 to 2^53 - 1, [===] on their Numbers is
    equality. *)
Lemma eqb_of_Z (a b : Z) :
  0 < a < 2 ^ 53 -> 0 < b < 2 ^ 53 -> (eqb (of_Z a) (of_Z b) = true <-> a = b).
Proof.
  intros Ha Hb. split; [|intros ->].
  - destruct a as [|p|p]; [lia| |lia]. destruct b as [|q|q]; [lia| |lia].
    rewrite (of_Z_small p), (of_Z_small q) by lia.
    pose proof (digits2_pos_bound p ltac:(lia)) as Hp.
    pose proof (digits2_pos_bound q ltac:(lia)) as Hq.
    destruct (53 - Zpos (digits2_pos p)) as [|k|k] eqn:Ek; [| |lia];
      destruct (53 - Zpos (digits2_pos q)) as [|k'|k'] eqn:Ek'; try lia;
      rewrite eqb_finite; intros [He Hm]; try discriminate He.
    + congruence.
    + injection He as <-. apply iter_xO_inj in Hm. congruence.
  - destruct b as [|p|p]; [lia| |lia].
    rewrite (of_Z_small p) by lia.
    destruct (53 - Zpos (digits2_pos p)); apply eqb_finite; auto.
Qed.

Lemma eqb_NaN (x : num) : eqb x NaN = false.
Proof. destruct x as [| | |[|] m e]; reflexivity. Qed.

Lemma of_decimal_whole (n : Z) : 0 <= n -> of_decimal false n 0 = of_Z n.
Proof.
  intros Hn. destruct n as [|p|p]; [reflexivity| |lia].
  unfold of_decimal. simpl Z.leb. cbn [cond_Zopp]. rewrite Z.pow_0_r, Z.mul_1_r. reflexivity.
Qed.

(** *** Decimal digits written and read back *)

Lemma decimal_digit_cases (c : ascii) :
  decimal_digit c = true ->
  c = "0"%char \/ c = "1"%char \/ c = "2"%char \/ c = "3"%char \/ c = "4"%char
  \/ c = "5"%char \/ c = "6"%char \/ c = "7"%char \/ c = "8"%char \/ c = "9"%char.
Proof.
  destruct c as [[] [] [] [] [] [] [] []]; intros H; try discriminate H; auto 10.
Qed.

Lemma decimal_digit_value (c : ascii) :
  decimal_digit c = true ->
  (exists d : Z, digit_value 10 c = Some d)
  /\ (code c =? 45) = false /\ (code c =? 43) = false
  /\ forall t : string, strip_prefix "Infinity" (String c t) = None.
Proof.
  intros Hc. apply decimal_digit_cases in Hc.
  repeat (destruct Hc as [->|Hc]; [repeat split; try reflexivity; eexists; reflexivity|]).
  subst. repeat split; try reflexivity; eexists; reflexivity.
Qed.

Lemma pretty_N_char_digit (x : N) :
  (x < 10)%N ->
  digit_value 10 (pretty_N_char x) = Some (Z.of_N x)
  /\ decimal_digit (pretty_N_char x) = true.
Proof.
  intros H.
  assert (x = 0 \/ x = 1 \/ x = 2 \/ x = 3 \/ x = 4 \/ x = 5 \/ x = 6 \/ x = 7
          \/ x = 8 \/ x = 9)%N as Hx by lia.
  repeat (destruct Hx as [->|Hx]; [split; reflexivity|]). subst. split; reflexivity.
Qed.

(** Reading the digits that [pretty] wrote gives the number back. *)
Lemma digits_from_pretty_N_go (x : N) :
  exists k : nat,
    ((0 < x)%N -> (0 < k)%nat)
    /\ forall (acc : Z) (cnt : nat) (rest : string),
         digits_from 10 acc cnt (pretty_N_go x rest)
         = digits_from 10 (acc * 10 ^ Z.of_nat k + Z.of_N x) (cnt + k) rest.
Proof.
  induction (N.lt_wf_0 x) as [x _ IH].
  destruct (N.eq_dec x 0%N) as [->|Hx].
  - exists 0%nat. split; [lia|]. intros acc cnt rest.
    rewrite pretty_N_go_0. f_equal; [simpl; lia | lia].
  - destruct (IH (x `div` 10)%N) as (k & _ & Hk).
    { apply N.div_lt; lia. }
    exists (S k). split; [lia|]. intros acc cnt rest.
    rewrite pretty_N_go_step by lia. rewrite Hk.
    destruct (pretty_N_char_digit (x `mod` 10)%N) as [Hd _].
    { apply N.mod_lt. lia. }
    simpl digits_from. rewrite Hd. f_equal.
    + rewrite Nat2Z.inj_succ, Z.pow_succ_r by lia.
      rewrite (N.div_mod x 10) at 3 by lia.
      rewrite N2Z.inj_add, N2Z.inj_mul. simpl Z.of_N. ring.
    + lia.
Qed.

Lemma all_decimal_pretty_N_go (x : N) (rest : string) :
  all_decimal rest = true -> all_decimal (pretty_N_go x rest) = true.
Proof.
  revert rest. induction (N.lt_wf_0 x) as [x _ IH]. intros rest Hrest.
  destruct (N.eq_dec x 0%N) as [->|Hx].
  - rewrite pretty_N_go_0. exact Hrest.
  - rewrite pretty_N_go_step by lia. apply IH.
    + apply N.div_lt; lia.
    + simpl. rewrite Hrest, andb_true_r.
      apply pretty_N_char_digit, N.mod_lt. lia.
Qed.

Lemma pretty_N_go_nonempty (x : N) (rest : string) :
  rest <> "" -> pretty_N_go x rest <> "".
Proof.
  revert rest. induction (N.lt_wf_0 x) as [x _ IH]. intros rest Hrest.
  destruct (N.eq_dec x 0%N) as [->|Hx].
  - rewrite pretty_N_go_0. exact Hrest.
  - rewrite pretty_N_go_step by lia. apply IH; [apply N.div_lt; lia | discriminate].
Qed.

Lemma digit_string_decimal (n : Z) :
  all_decimal (digit_string n) = true /\ digit_string n <> "".
Proof.
  unfold digit_string, pretty, pretty_N.
  destruct (decide (Z.to_N n = 0%N)) as [_|Hn]; [split; [reflexivity|discriminate]|].
  split; [apply all_decimal_pretty_N_go; reflexivity|].
  rewrite pretty_N_go_step by lia. apply pretty_N_go_nonempty. discriminate.
Qed.

Lemma digits_digit_string (n : Z) :
  0 <= n -> exists k : nat, digits 10 (digit_string n) = (n, k, "") /\ (0 < k)%nat.
Proof.
  intros Hn. unfold digit_string, pretty, pretty_N, digits.
  destruct (decide (Z.to_N n = 0%N)) as [H0|Hpos].
  - exists 1%nat. replace n with 0 by lia. split; [reflexivity|lia].
  - destruct (digits_from_pretty_N_go (Z.to_N n)) as (k & Hk & Hd).
    exists k. rewrite Hd. simpl. split; [|apply Hk; lia].
    f_equal. f_equal. lia.
Qed.

Lemma digit_string_zero (n : Z) : 0 <= n -> digit_string n = "0" -> n = 0.
Proof.
  intros Hn H. unfold digit_string in H.
  change "0" with (pretty 0%N) in H. apply (inj pretty) in H. lia.
Qed.

Lemma skip_ws_digit (c : ascii) (t : string) :
  decimal_digit c = true -> skip_ws (String c t) = String c t.
Proof.
  intros H. apply decimal_digit_cases in H.
  repeat (destruct H as [->|H]; [destruct t as [|b [|c3 t]]; reflexivity|]).
  subst. destruct t as [|b [|c3 t]]; reflexivity.
Qed.

Lemma digits_from_count (radix acc : Z) (cnt : nat) (s : string) :
  (cnt <= snd (fst (digits_from radix acc cnt s)))%nat.
Proof.
  revert acc cnt. induction s as [|c s IH]; intros acc cnt; simpl; [lia|].
  destruct (digit_value radix c); simpl; [|lia].
  specialize (IH (acc * radix + z) (S cnt)). lia.
Qed.

Lemma append_cons (c : ascii) (t u : string) : String c t +:+ u = String c (t +:+ u).
Proof. reflexivity. Qed.

Lemma digits_from_tail (s : string) (x : ascii) (r : string) (acc : Z) (cnt : nat) :
  all_decimal s = true -> digit_value 10 x = None ->
  digits_from 10 acc cnt (s +:+ String x r)
  = (fst (fst (digits_from 10 acc cnt s)), snd (fst (digits_from 10 acc cnt s)), String x r).
Proof.
  intros Hs Hx. revert acc cnt. induction s as [|c s IH]; intros acc cnt.
  - simpl. change ("" +:+ String x r) with (String x r). simpl. rewrite Hx. reflexivity.
  - rewrite append_cons. simpl in Hs. apply andb_true_iff in Hs as [Hc Hs].
    simpl. destruct (decimal_digit_value c Hc) as ([d ->] & _). apply IH. exact Hs.
Qed.

(** [parseInt] of a string that starts with a decimal digit and not with
    the prefix of a hexadecimal literal: the Number of its leading digits. *)
Lemma parseInt_string_decimal (c : ascii) (t : string) :
  decimal_digit c = true ->
  (forall (x : ascii) (r : string),
      t = String x r -> c = "0"%char -> code x <> 120 /\ code x <> 88) ->
  parseInt_string (String c t) = of_Z (fst (fst (digits 10 (String c t)))).
Proof.
  intros Hc Hprefix. unfold parseInt_string. rewrite (skip_ws_digit c t Hc).
  destruct (decimal_digit_value c Hc) as ([d Hd] & -> & -> & _).
  assert (Hradix : match String c t with
                   | String z (String x r) =>
                       if (code z =? 48) && ((code x =? 120) || (code x =? 88))
                       then (16, r) else (10, String c t)
                   | _ => (10, String c t)
                   end = (10, String c t)).
  { destruct t as [|x r]; [reflexivity|].
    destruct (Z.eqb_spec (code c) 48) as [H48|H48]; [|reflexivity].
    assert (c = "0"%char) as Hc0.
    { apply decimal_digit_cases in Hc.
      repeat (destruct Hc as [->|Hc]; [(reflexivity || discriminate H48)|]).
      subst. discriminate H48. }
    destruct (Hprefix x r eq_refl Hc0) as [H1 H2].
    apply Z.eqb_neq in H1, H2. rewrite H1, H2. reflexivity. }
  rewrite Hradix.
  unfold digits. simpl digits_from. rewrite Hd.
  pose proof (digits_from_count 10 (0 * 10 + d) 1 t) as Hc1.
  destruct (digits_from 10 (0 * 10 + d) 1 t) as [[v n] r]. simpl in *.
  destruct n as [|n]; [lia|]. simpl.
  destruct (Z.eqb_spec v 0) as [->|Hv]; reflexivity.
Qed.

Lemma parseInt_digit_string (n : Z) :
  0 <= n -> parseInt_string (digit_string n) = of_Z n.
Proof.
  intros Hn.
  destruct (digit_string_decimal n) as [Hall Hne].
  destruct (digits_digit_string n Hn) as (k & Hk & _).
  destruct (digit_string n) as [|c t] eqn:E; [congruence|].
  simpl in Hall. apply andb_true_iff in Hall as [Hc Ht].
  rewrite parseInt_string_decimal; [rewrite Hk; reflexivity | exact Hc |].
  intros x r -> _.
  simpl in Ht. apply andb_true_iff in Ht as [Hx _].
  unfold decimal_digit in Hx. apply andb_true_iff in Hx as [H1 H2]. lia.
Qed.

Lemma parseInt_trailing (n : Z) (x : ascii) (r : string) :
  0 <= n -> digit_value 10 x = None ->
  (n = 0 -> code x <> 120 /\ code x <> 88) ->
  parseInt_string (digit_string n +:+ String x r) = of_Z n.
Proof.
  intros Hn Hx H0.
  destruct (digit_string_decimal n) as [Hall Hne].
  destruct (digits_digit_string n Hn) as (k & Hk & _).
  pose proof (digit_string_zero n Hn) as Hz.
  destruct (digit_string n) as [|c t] eqn:E; [congruence|].
  rewrite append_cons.
  pose proof Hall as Hall'. simpl in Hall'. apply andb_true_iff in Hall' as [Hc Ht].
  rewrite parseInt_string_decimal.
  - rewrite <- append_cons. unfold digits in *. rewrite digits_from_tail by assumption.
    rewrite Hk. reflexivity.
  - exact Hc.
  - intros x' r' Heq Hc0. destruct t as [|d t].
    + change ("" +:+ String x r) with (String x r) in Heq. injection Heq as <- <-.
      apply H0, Hz. rewrite Hc0. reflexivity.
    + rewrite append_cons in Heq. injection Heq as <- <-.
      simpl in Ht. apply andb_true_iff in Ht as [Hd _].
      unfold decimal_digit in Hd. apply andb_true_iff in Hd as [H1 H2]. lia.
Qed.

Lemma StrDecimalLiteral_digit_string (n : Z) :
  0 <= n -> StrDecimalLiteral (digit_string n) = Some (of_Z n, "").
Proof.
  intros Hn.
  destruct (digit_string_decimal n) as [Hall Hne].
  destruct (digits_digit_string n Hn) as (k & Hk & Hpos).
  destruct (digit_string n) as [|c t] eqn:E; [congruence|].
  simpl in Hall. apply andb_true_iff in Hall as [Hc _].
  destruct (decimal_digit_value c Hc) as (_ & H1 & H2 & H3).
  unfold StrDecimalLiteral. rewrite H1, H2.
  unfold StrUnsignedDecimalLiteral. rewrite H3, Hk.
  destruct k as [|k]; [lia|]. cbn [Nat.eqb andb ExponentPart Z.of_nat].
  rewrite Z.pow_0_r, Z.mul_1_r, Z.add_0_r. simpl Z.opp.
  rewrite of_decimal_whole by exact Hn. reflexivity.
Qed.

Lemma parseFloat_digit_string (n : Z) :
  0 <= n -> parseFloat_string (digit_string n) = of_Z n.
Proof.
  intros Hn. unfold parseFloat_string.
  destruct (digit_string_decimal n) as [Hall Hne].
  pose proof (StrDecimalLiteral_digit_string n Hn) as H.
  destruct (digit_string n) as [|c t] eqn:E; [congruence|].
  simpl in Hall. apply andb_true_iff in Hall as [Hc _].
  rewrite skip_ws_digit by exact Hc. rewrite H. reflexivity.
Qed.

Lemma StringToNumber_digit_string (n : Z) :
  0 <= n -> StringToNumber (digit_string n) = of_Z n.
Proof.
  intros Hn. unfold StringToNumber.
  destruct (digit_string_decimal n) as [Hall Hne].
  pose proof (StrDecimalLiteral_digit_string n Hn) as H.
  destruct (digit_string n) as [|c t] eqn:E; [congruence|].
  pose proof Hall as Hall'. simpl in Hall'. apply andb_true_iff in Hall' as [Hc Ht].
  rewrite skip_ws_digit by exact Hc. cbn [is_empty].
  assert (Hnd : NonDecimalIntegerLiteral (String c t) = None).
  { destruct t as [|x r]; [reflexivity|].
    simpl in Ht. apply andb_true_iff in Ht as [Hx _].
    apply decimal_digit_cases in Hx. unfold NonDecimalIntegerLiteral.
    repeat (destruct Hx as [->|Hx]; [cbn; rewrite andb_false_r; reflexivity|]).
    subst. cbn. rewrite andb_false_r. reflexivity. }
  rewrite Hnd, H. reflexivity.
Qed.

Lemma digit_string_truthy (n : Z) : ToBoolean (VStr (digit_string n)) = true.
Proof.
  destruct (digit_string_decimal n) as [_ Hne].
  simpl. destruct (digit_string n); [congruence|reflexivity].
Qed.

(** *** Coercions that throw, and what [calculatePace] computes *)






Lemma calculatePace_spec (distance duration : value) (x d : num) :
  ToNumber distance = Some x -> ToNumber duration = Some d ->
  calculatePace distance duration = Some (spec_pace x d).
Proof. intros Hx Hd. unfold calculatePace. rewrite Hd, Hx. reflexivity. Qed.

Lemma spec_pace_NaN (x d : num) :
  is_nan x = true \/ is_nan d = true -> spec_pace x d = "NaN:NaN".
Proof.
  intros [H|H].
  - destruct x; try discriminate H. destruct d as [| | |[|] m e]; reflexivity.
  - destruct d; try discriminate H. reflexivity.
Qed.

Lemma spec_pace_zero_distance (s : bool) (d : num) :
  is_positive d = true ->
  spec_pace (S754_zero s) d = (if s then "-Infinity:NaN" else "Infinity:NaN").
Proof. destruct d as [| | |[|] m e]; try discriminate. destruct s; reflexivity. Qed.

Lemma spec_pace_zero_zero (s : bool) (d : num) :
  is_zero d = true -> spec_pace (S754_zero s) d = "NaN:NaN".
Proof. destruct d as [sd| | |]; try discriminate. destruct s, sd; reflexivity. Qed.

(** *** The handlers, step by step *)

Lemma runs_seeds : runs = [first_seed; second_seed].
Proof. reflexivity. Qed.

Lemma seeds_sequential : sequential runs.
Proof.
  intros [|[|[|i]]] run H; simpl in H; try discriminate H; injection H as <-; reflexivity.
Qed.

Lemma seeds_exact_ids : exact_ids runs.
Proof.
  intros run Hin. rewrite runs_seeds in Hin.
  apply elem_of_cons in Hin as [->|Hin]; [unfold first_seed; cbn [Run.id]; lia|].
  apply elem_of_cons in Hin as [->|Hin]; [unfold second_seed; cbn [Run.id]; lia|].
  apply elem_of_nil in Hin. contradiction.
Qed.

Lemma post_runs_record (body : Body.t) (store store' : list Run.t) (newRun : Run.t) :
  post_runs body store = (store', Created newRun) ->
  exists (p : string) (x d : num),
    calculatePace (Body.distance body) (Body.duration body) = Some p
    /\ parseFloat (Body.distance body) = Some x
    /\ parseInt (Body.duration body) = Some d
    /\ newRun = Run.mk (Z.of_nat (length store) + 1) (Body.date body) x d p
                  (or_default (Body.location body) (VStr "Unknown")).
Proof.
  unfold post_runs.
  destruct (negb _ || negb _ || negb _); [discriminate|].
  destruct (calculatePace _ _) as [p|]; simpl; [|discriminate].
  destruct (parseFloat _) as [x|]; simpl; [|discriminate].
  destruct (parseInt _) as [d|]; simpl; [|discriminate].
  intros H. injection H as _ <-. eauto 10.
Qed.

Lemma created_pace (body : Body.t) (store store' : list Run.t) (newRun : Run.t) :
  post_runs body store = (store', Created newRun) ->
  exists x d : num,
    ToNumber (Body.distance body) = Some x /\ ToNumber (Body.duration body) = Some d
    /\ Run.pace newRun = spec_pace x d
    /\ parseFloat (Body.distance body) = Some (Run.distance newRun)
    /\ parseInt (Body.duration body) = Some (Run.duration newRun).
Proof.
  intros H. destruct (post_runs_record _ _ _ _ H) as (p & x' & d' & Hp & Hx & Hd & ->).
  unfold calculatePace in Hp.
  destruct (ToNumber (Body.duration body)) as [d|]; [|discriminate Hp].
  destruct (ToNumber (Body.distance body)) as [x|]; [|discriminate Hp].
  simpl in Hp. injection Hp as <-. exists x, d. auto.
Qed.

Lemma or_default_truthy (v d : value) :
  ToBoolean d = true -> ToBoolean (or_default v d) = true.
Proof. intros H. unfold or_default. destruct (ToBoolean v) eqn:E; assumption. Qed.

Lemma handle_step (req : request) (store : list Run.t) :
  (fst (handle req store) = store
   /\ no_content (snd (handle req store)) = false
   /\ created [snd (handle req store)] = [])
  \/ (exists newRun : Run.t,
        handle req store = (store ++ [newRun], Created newRun)
        /\ Run.id newRun = Z.of_nat (length store) + 1
        /\ ToBoolean (Run.date newRun) = true /\ ToBoolean (Run.location newRun) = true)
  \/ (exists (i : nat) (run : Run.t),
        handle req store = (delete i store, NoContent) /\ store !! i = Some run).
Proof.
  destruct req as [|body|id_param|now]; simpl; auto.
  - destruct (post_runs_cases body store) as [H|[H|(r & H & Hid)]].
    + rewrite H. auto.
    + rewrite H. auto.
    + right. left. exists r. split; [exact H|]. split; [exact Hid|].
      destruct (post_runs_created _ _ _ _ H) as (_ & _ & Hdate & _).
      destruct (post_runs_record _ _ _ _ H) as (p & x & d & _ & _ & _ & ->).
      simpl. split; [exact Hdate|]. apply or_default_truthy. reflexivity.
  - destruct (delete_run_cases id_param store) as [[_ H]|(i & run & Hl & _ & _ & H)];
      rewrite H; simpl; eauto 10.
Qed.

Lemma serve_cons (req : request) (reqs : list request) (store : list Run.t) :
  serve (req :: reqs) store
  = (fst (serve reqs (fst (handle req store))),
     snd (handle req store) :: snd (serve reqs (fst (handle req store)))).
Proof.
  simpl. destruct (handle req store) as [s1 r1]. simpl.
  destruct (serve reqs s1). reflexivity.
Qed.

Lemma created_cons (r : response) (resps : list response) :
  created (r :: resps) = created [r] ++ created resps.
Proof. destruct r; reflexivity. Qed.

Lemma sequential_app (store : list Run.t) (r : Run.t) :
  sequential store -> Run.id r = Z.of_nat (length store) + 1 -> sequential (store ++ [r]).
Proof.
  intros Hs Hr i run Hi.
  destruct (decide (i < length store)%nat) as [Hlt|Hge].
  - rewrite lookup_app_l in Hi by exact Hlt. apply Hs. exact Hi.
  - rewrite lookup_app_r in Hi by lia.
    destruct (i - length store)%nat as [|k] eqn:E; simpl in Hi; [|destruct k; discriminate Hi].
    injection Hi as <-. rewrite Hr. f_equal. lia.
Qed.

Lemma sequential_NoDup (store : list Run.t) :
  sequential store -> NoDup (Run.id <$> store).
Proof.
  intros Hs. apply NoDup_alt. intros i j x Hi Hj.
  rewrite list_lookup_fmap in Hi, Hj.
  destruct (store !! i) as [a|] eqn:Ea; [|discriminate Hi].
  destruct (store !! j) as [b|] eqn:Eb; [|discriminate Hj].
  simpl in Hi, Hj. injection Hi as Hi. injection Hj as Hj.
  apply Hs in Ea. apply Hs in Eb. lia.
Qed.

Lemma sequential_exact_ids (store : list Run.t) :
  sequential store -> Z.of_nat (length store) < 2 ^ 53 -> exact_ids store.
Proof.
  intros Hseq Hlen run Hin. apply list_elem_of_lookup in Hin as [i Hi].
  pose proof (lookup_lt_Some _ _ _ Hi). rewrite (Hseq i run Hi). lia.
Qed.

Lemma well_formed_mono (b b' : Z) (run : Run.t) :
  b <= b' -> well_formed b run -> well_formed b' run.
Proof. intros Hb ((H1 & H2) & H3). split; [lia | exact H3]. Qed.

Lemma serve_well_formed (reqs : list request) (store : list Run.t) (b : Z) :
  Forall (well_formed b) store -> Z.of_nat (length store) <= b ->
  Forall (well_formed (b + Z.of_nat (length reqs))) (fst (serve reqs store)).
Proof.
  revert store b. induction reqs as [|req reqs IH]; intros store b Hs Hlen.
  - simpl. rewrite Z.add_0_r. exact Hs.
  - rewrite serve_cons. cbn [fst].
    replace (b + Z.of_nat (length (req :: reqs))) with (b + 1 + Z.of_nat (length reqs))
      by (simpl length; lia).
    assert (Hs' : Forall (well_formed (b + 1)) store).
    { eapply Forall_impl; [exact Hs|]. intros run. apply well_formed_mono. lia. }
    destruct (handle_step req store) as [(H & _)|[(r & H & Hid & Hd & Hl)|(i & run & H & Hi)]];
      rewrite H; cbn [fst]; apply IH.
    + exact Hs'.
    + lia.
    + apply Forall_app. split; [exact Hs'|]. constructor; [|constructor].
      unfold well_formed. repeat split; auto; lia.
    + rewrite length_app. simpl. lia.
    + apply Forall_delete. exact Hs'.
    + rewrite length_delete by eauto. lia.
Qed.

Lemma id_is_decimal (n : Z) (run : Run.t) :
  0 < n < 2 ^ 53 -> 0 < Run.id run < 2 ^ 53 ->
  (id_is (parseInt_string (digit_string n)) run = true <-> Run.id run = n).
Proof.
  intros Hn Hr. unfold id_is. rewrite parseInt_digit_string by lia.
  apply eqb_of_Z; assumption.
Qed.

Lemma id_is_zero (run : Run.t) :
  0 < Run.id run < 2 ^ 53 -> id_is (parseInt_string (digit_string 0)) run = false.
Proof.
  intros Hr. unfold id_is. rewrite parseInt_digit_string by lia.
  destruct (Run.id run) as [|p|p]; [lia| |lia].
  rewrite of_Z_small by lia. destruct (53 - Zpos (digits2_pos p)); reflexivity.
Qed.

Lemma delete_run_none (id_param : string) (store : list Run.t) :
  (forall run, run ∈ store -> id_is (parseInt_string id_param) run = false) ->
  delete_run id_param store = (store, NotFound "Run not found").
Proof.
  intros H. destruct (delete_run_cases id_param store) as [[_ Hd]|(i & run & Hl & Hr & _)];
    [exact Hd|].
  rewrite H in Hr; [discriminate Hr|]. apply list_elem_of_lookup. eauto.
Qed.

Lemma delete_run_at (id_param : string) (pre post : list Run.t) (run : Run.t) :
  (forall r, r ∈ pre -> id_is (parseInt_string id_param) r = false) ->
  id_is (parseInt_string id_param) run = true ->
  delete_run id_param (pre ++ run :: post) = (pre ++ post, NoContent).
Proof.
  intros Hpre Hrun.
  destruct (delete_run_cases id_param (pre ++ run :: post))
    as [[Hnone _]|(i & r & Hl & Hr & Hbefore & Hd)].
  - rewrite Hnone in Hrun; [discriminate Hrun|].
    apply elem_of_app. right. apply list_elem_of_here.
  - rewrite Hd. f_equal.
    assert (i = length pre) as ->.
    { destruct (Nat.lt_trichotomy i (length pre)) as [Hlt|[Heq|Hgt]]; [|exact Heq|].
      - rewrite lookup_app_l in Hl by exact Hlt.
        rewrite Hpre in Hr; [discriminate Hr|]. apply list_elem_of_lookup. eauto.
      - rewrite (Hbefore (length pre) run Hgt) in Hrun; [discriminate Hrun|].
        rewrite list_lookup_middle; reflexivity. }
    apply delete_middle.
Qed.

Lemma delete_run_cons (id_param : string) (run : Run.t) (store : list Run.t) :
  fst (delete_run id_param (run :: store))
  = if id_is (parseInt_string id_param) run then store
    else run :: fst (delete_run id_param store).
Proof.
  unfold delete_run. simpl findIndex.
  destruct (id_is (parseInt_string id_param) run); [reflexivity|].
  pose proof (findIndex_lower (id_is (parseInt_string id_param)) store) as Hlow.
  destruct (Z.eqb_spec (findIndex (id_is (parseInt_string id_param)) store) (-1)) as [Hi|Hi].
  - reflexivity.
  - destruct (Z.eqb_spec (findIndex (id_is (parseInt_string id_param)) store + 1) (-1)); [lia|].
    simpl. rewrite Z2Nat.inj_add by lia. rewrite Nat.add_1_r. reflexivity.
Qed.

Lemma deletes_commute_disjoint (p q : string) (store : list Run.t) :
  (forall run, run ∈ store ->
     id_is (parseInt_string p) run = true -> id_is (parseInt_string q) run = false) ->
  fst (delete_run q (fst (delete_run p store)))
  = fst (delete_run p (fst (delete_run q store))).
Proof.
  induction store as [|run store IH]; intros Hdis; [reflexivity|].
  rewrite (delete_run_cons p run store), (delete_run_cons q run store).
  assert (IH' := IH (fun r Hin => Hdis r (list_elem_of_further _ _ _ Hin))).
  destruct (id_is (parseInt_string p) run) eqn:Hp.
  - rewrite (Hdis run (list_elem_of_here _ _) Hp).
    rewrite delete_run_cons, Hp. reflexivity.
  - destruct (id_is (parseInt_string q) run) eqn:Hq.
    + rewrite delete_run_cons, Hq. reflexivity.
    + rewrite !delete_run_cons, Hp, Hq, IH'. reflexivity.
Qed.

Lemma delete_decimal_found (n : Z) (pre post : list Run.t) (run : Run.t) :
  0 < n < 2 ^ 53 -> exact_ids (pre ++ run :: post) ->
  Run.id run = n -> (forall r : Run.t, r ∈ pre -> Run.id r <> n) ->
  delete_run (digit_string n) (pre ++ run :: post) = (pre ++ post, NoContent).
Proof.
  intros Hn Hids Hrun Hpre. apply delete_run_at.
  - intros r Hin. destruct (id_is _ r) eqn:E; [|reflexivity].
    apply id_is_decimal in E; [exfalso; exact (Hpre r Hin E) | exact Hn |].
    apply Hids, elem_of_app. left. exact Hin.
  - apply id_is_decimal; [exact Hn | | exact Hrun].
    apply Hids, elem_of_app. right. apply list_elem_of_here.
Qed.

Lemma delete_decimal_missing (n : Z) (store : list Run.t) :
  0 <= n < 2 ^ 53 -> exact_ids store ->
  (forall run : Run.t, run ∈ store -> Run.id run <> n) ->
  delete_run (digit_string n) store = (store, NotFound "Run not found").
Proof.
  intros Hn Hids Hnone. apply delete_run_none. intros run Hin.
  destruct (Z.eq_dec n 0) as [->|Hn0]; [apply id_is_zero, Hids, Hin|].
  destruct (id_is _ run) eqn:E; [|reflexivity].
  apply id_is_decimal in E; [exfalso; exact (Hnone run Hin E) | lia | exact (Hids run Hin)].
Qed.

(** *** The create handler *)



(** X2: the pace of a created record is the rule applied to the [ToNumber]
    conversions of the raw distance and duration, while the numbers stored
    beside it are [parseFloat] and [parseInt] of the same fields; the two
    can disagree.  With distance 5.2km the record holds distance 5.2,
    duration 28 and pace NaN:NaN; with duration 28.9 it holds duration 28
    and pace 5:33; the rule on the stored numbers gives 5:23. *)
Theorem pace_uses_raw_fields :
  (forall (body : Body.t) (store store' : list Run.t) (newRun : Run.t),
      post_runs body store = (store', Created newRun) ->
      exists x d : num,
        ToNumber (Body.distance body) = Some x /\ ToNumber (Body.duration body) = Some d
        /\ Run.pace newRun = spec_pace x d
        /\ parseFloat (Body.distance body) = Some (Run.distance newRun)
        /\ parseInt (Body.duration body) = Some (Run.duration newRun))
  /\ post_runs unit_body runs = (runs ++ [unit_run], Created unit_run)
  /\ post_runs fraction_body runs = (runs ++ [fraction_run], Created fraction_run)
  /\ spec_pace (Run.distance unit_run) (Run.duration unit_run) = "5:23"
  /\ spec_pace (Run.distance fraction_run) (Run.duration fraction_run) = "5:23"
  /\ Run.pace unit_run = "NaN:NaN" /\ Run.pace fraction_run = "5:33".
Proof.
  split; [exact created_pace|].
  repeat apply conj; vm_compute; reflexivity.
Qed.

Lemma pace_uses_raw_fields_witness :
  exists x d : num,
    ToNumber (Body.distance unit_body) = Some x /\ ToNumber (Body.duration unit_body) = Some d
    /\ Run.pace unit_run = spec_pace x d
    /\ parseFloat (Body.distance unit_body) = Some (Run.distance unit_run)
    /\ parseInt (Body.duration unit_body) = Some (Run.duration unit_run).
Proof.
  apply (proj1 pace_uses_raw_fields unit_body runs (runs ++ [unit_run]) unit_run).
  vm_compute. reflexivity.
Defined.

(** X3: when the distance or the duration of an accepted create request
    converts to NaN (text that is no number, a plain object, an array of
    several numbers), the stored pace is NaN:NaN. *)
Theorem create_pace_not_a_number (body : Body.t) (store store' : list Run.t)
    (newRun : Run.t) (x d : num) :
  post_runs body store = (store', Created newRun) ->
  ToNumber (Body.distance body) = Some x -> ToNumber (Body.duration body) = Some d ->
  is_nan x = true \/ is_nan d = true ->
  Run.pace newRun = "NaN:NaN".
Proof.
  intros H Hx Hd Hnan.
  destruct (created_pace _ _ _ _ H) as (x' & d' & Hx' & Hd' & -> & _).
  rewrite Hx in Hx'. rewrite Hd in Hd'. injection Hx' as <-. injection Hd' as <-.
  apply spec_pace_NaN. exact Hnan.
Qed.

Lemma create_pace_not_a_number_witness : Run.pace unit_run = "NaN:NaN".
Proof.
  apply (create_pace_not_a_number unit_body runs (runs ++ [unit_run]) unit_run
           NaN (of_Z 28)).
  - vm_compute. reflexivity.
  - vm_compute. reflexivity.
  - reflexivity.
  - left. reflexivity.
Defined.

(** X4: when the distance of an accepted create request converts to zero,
    the stored pace is Infinity:NaN for a positive duration (with a minus
    sign for the distance minus zero), and NaN:NaN for a duration that
    converts to zero. *)
Theorem create_pace_zero_distance (body : Body.t) (store store' : list Run.t)
    (newRun : Run.t) (s : bool) (d : num) :
  post_runs body store = (store', Created newRun) ->
  ToNumber (Body.distance body) = Some (S754_zero s) ->
  ToNumber (Body.duration body) = Some d ->
  is_positive d = true \/ is_zero d = true ->
  Run.pace newRun
  = if is_zero d then "NaN:NaN" else if s then "-Infinity:NaN" else "Infinity:NaN".
Proof.
  intros H Hx Hd Hcase.
  destruct (created_pace _ _ _ _ H) as (x' & d' & Hx' & Hd' & -> & _).
  rewrite Hx in Hx'. rewrite Hd in Hd'. injection Hx' as <-. injection Hd' as <-.
  destruct Hcase as [Hpos|Hzero].
  - rewrite (spec_pace_zero_distance s d Hpos).
    destruct d as [| | |[|] m e]; try discriminate Hpos. reflexivity.
  - rewrite (spec_pace_zero_zero s d Hzero), Hzero. reflexivity.
Qed.

Lemma create_pace_zero_distance_witness :
  Run.pace zero_string_run
  = if is_zero (of_Z 28) then "NaN:NaN" else if false then "-Infinity:NaN" else "Infinity:NaN".
Proof.
  apply (create_pace_zero_distance zero_string_body runs (runs ++ [zero_string_run])
           zero_string_run false (of_Z 28)).
  - vm_compute. reflexivity.
  - vm_compute. reflexivity.
  - reflexivity.
  - left. vm_compute. reflexivity.
Defined.

(** X5: a create request whose distance and duration are the decimal
    digits of whole numbers [a] and [b], sent as strings, and whose date is
    truthy, is accepted; the record holds the Numbers of [a] and [b], the
    pace of the rule on them, the date as sent, the id length + 1, and the
    location as sent, or Unknown when that is falsy. *)
Theorem create_from_decimal_strings (date location : value) (a b : Z)
    (store : list Run.t) :
  ToBoolean date = true -> 0 <= a -> 0 <= b ->
  post_runs (Body.mk date (VStr (digit_string a)) (VStr (digit_string b)) location) store
  = (store ++ [Run.mk (Z.of_nat (length store) + 1) date (of_Z a) (of_Z b)
                 (spec_pace (of_Z a) (of_Z b)) (or_default location (VStr "Unknown"))],
     Created (Run.mk (Z.of_nat (length store) + 1) date (of_Z a) (of_Z b)
                (spec_pace (of_Z a) (of_Z b)) (or_default location (VStr "Unknown")))).
Proof.
  intros Hdate Ha Hb. unfold post_runs.
  cbn [Body.date Body.distance Body.duration Body.location].
  rewrite Hdate, !digit_string_truthy. cbn [negb orb].
  rewrite (calculatePace_spec _ _ (of_Z a) (of_Z b)).
  2:{ simpl. rewrite StringToNumber_digit_string by exact Ha. reflexivity. }
  2:{ simpl. rewrite StringToNumber_digit_string by exact Hb. reflexivity. }
  unfold parseFloat, parseInt. cbn [ToString mbind option_bind].
  rewrite parseFloat_digit_string, parseInt_digit_string by assumption.
  reflexivity.
Qed.

Lemma create_from_decimal_strings_witness :
  post_runs (Body.mk (VStr "2024-01-15") (VStr (digit_string 5)) (VStr (digit_string 28))
               VNull) runs
  = (runs ++ [Run.mk (Z.of_nat (length runs) + 1) (VStr "2024-01-15") (of_Z 5) (of_Z 28)
                (spec_pace (of_Z 5) (of_Z 28)) (or_default VNull (VStr "Unknown"))],
     Created (Run.mk (Z.of_nat (length runs) + 1) (VStr "2024-01-15") (of_Z 5) (of_Z 28)
                (spec_pace (of_Z 5) (of_Z 28)) (or_default VNull (VStr "Unknown")))).
Proof.
  apply (create_from_decimal_strings (VStr "2024-01-15") VNull 5 28 runs).
  - reflexivity.
  - lia.
  - lia.
Defined.

(** *** Sequences of requests *)

(** X6: after any sequence of requests, the length of the store plus the
    number of 204 answers is the length it started with plus the number of
    201 answers: every create that succeeds adds one record, every delete
    that succeeds takes one out, nothing else changes the length. *)
Theorem length_accounting (reqs : list request) (store : list Run.t) :
  (length (fst (serve reqs store)) + removals (snd (serve reqs store))
   = length store + length (created (snd (serve reqs store))))%nat.
Proof.
  revert store. induction reqs as [|req reqs IH]; intros store; [reflexivity|].
  rewrite serve_cons. cbn [fst snd].
  specialize (IH (fst (handle req store))).
  rewrite created_cons, length_app.
  unfold removals in *. cbn [List.filter].
  destruct (handle_step req store) as [(H & Hn & Hc)|[(r & H & _)|(i & run & H & Hl)]].
  - rewrite H in IH |- *. rewrite Hn, Hc. simpl. exact IH.
  - rewrite H in IH |- *. cbn [fst snd no_content] in *.
    rewrite length_app in IH. simpl in *. lia.
  - rewrite H in IH |- *. cbn [fst snd no_content] in *.
    rewrite length_delete in IH by eauto.
    apply lookup_lt_Some in Hl. simpl in *. lia.
Qed.

(** X7: as long as no delete has succeeded, ids are positions: starting
    from a store whose i-th record has id i (the seed store is one), a
    sequence of requests without a 204 answer leaves such a store, and so
    no two records share an id. *)
Theorem ids_sequential_without_delete (reqs : list request) (store : list Run.t) :
  sequential store -> removals (snd (serve reqs store)) = 0%nat ->
  sequential (fst (serve reqs store)) /\ NoDup (Run.id <$> fst (serve reqs store)).
Proof.
  intros Hs Hr.
  assert (H : sequential (fst (serve reqs store))); [|split; auto using sequential_NoDup].
  revert store Hs Hr. induction reqs as [|req reqs IH]; intros store Hs Hr; [exact Hs|].
  rewrite serve_cons in Hr |- *. cbn [fst snd] in *.
  unfold removals in Hr. cbn [List.filter] in Hr.
  destruct (handle_step req store) as [(H & Hn & _)|[(r & H & Hid & _)|(i & run & H & _)]].
  - rewrite Hn in Hr. apply IH; [rewrite H; exact Hs | exact Hr].
  - rewrite H in Hr |- *. cbn [fst snd no_content] in *. apply IH; [|exact Hr].
    apply sequential_app; assumption.
  - rewrite H in Hr. cbn [fst snd no_content] in Hr. discriminate Hr.
Qed.

Lemma ids_sequential_without_delete_witness :
  sequential (fst (serve [POST_runs example_body; GET_runs; POST_runs sixty_body] runs))
  /\ NoDup (Run.id <$> fst (serve [POST_runs example_body; GET_runs; POST_runs sixty_body] runs)).
Proof.
  apply (ids_sequential_without_delete
           [POST_runs example_body; GET_runs; POST_runs sixty_body] runs).
  - exact seeds_sequential.
  - vm_compute. reflexivity.
Defined.

(** X8: after any sequence of requests on the seed store, every record
    has an id from 1 to 2 + the number of requests, a truthy date and a
    truthy location. *)
Theorem records_stay_well_formed (reqs : list request) :
  Forall (well_formed (2 + Z.of_nat (length reqs))) (fst (serve reqs runs)).
Proof.
  apply serve_well_formed; [|simpl; lia].
  rewrite runs_seeds.
  constructor; [|constructor; [|constructor]];
    (split; [cbn [Run.id first_seed second_seed]; lia | split; reflexivity]).
Qed.

(** *** The delete handler *)

(** X9: for ids that binary64 holds exactly (below 2^53), the id
    parameter written in decimal matches a record exactly when the
    record's id is that number: the handler takes out the first record
    with that id and answers 204. *)
Theorem delete_by_decimal_id (n : Z) (pre post : list Run.t) (run : Run.t) :
  0 < n < 2 ^ 53 -> exact_ids (pre ++ run :: post) ->
  Run.id run = n -> (forall r : Run.t, r ∈ pre -> Run.id r <> n) ->
  delete_run (digit_string n) (pre ++ run :: post) = (pre ++ post, NoContent).
Proof. intros Hn Hids Hrun Hpre. apply delete_decimal_found; assumption. Qed.

Lemma delete_by_decimal_id_witness :
  delete_run (digit_string 2) ([first_seed] ++ second_seed :: [])
  = ([first_seed] ++ [], NoContent).
Proof.
  apply (delete_by_decimal_id 2 [first_seed] [] second_seed).
  - lia.
  - exact seeds_exact_ids.
  - reflexivity.
  - intros r Hin. apply list_elem_of_singleton in Hin as ->.
    unfold first_seed. cbn [Run.id]. lia.
Defined.

(** X10: a decimal id parameter from 0 to 2^53 - 1 that is the id of no
    record is answered 404 and the store stays as it is. *)
Theorem delete_unknown_decimal_id (n : Z) (store : list Run.t) :
  0 <= n < 2 ^ 53 -> exact_ids store ->
  (forall run : Run.t, run ∈ store -> Run.id run <> n) ->
  delete_run (digit_string n) store = (store, NotFound "Run not found").
Proof. intros Hn Hids Hnone. apply delete_decimal_missing; assumption. Qed.

Lemma delete_unknown_decimal_id_witness :
  delete_run (digit_string 7) runs = (runs, NotFound "Run not found").
Proof.
  apply (delete_unknown_decimal_id 7 runs).
  - lia.
  - exact seeds_exact_ids.
  - intros run Hin. rewrite runs_seeds in Hin.
    apply elem_of_cons in Hin as [->|Hin]; [unfold first_seed; cbn [Run.id]; lia|].
    apply list_elem_of_singleton in Hin as ->. unfold second_seed. cbn [Run.id]. lia.
Defined.

(** X11: an id parameter that [parseInt] reads as NaN (no digit after the
    white space and the sign) is answered 404 whatever the store holds. *)
Theorem delete_not_a_number (id_param : string) (store : list Run.t) :
  is_nan (parseInt_string id_param) = true ->
  delete_run id_param store = (store, NotFound "Run not found").
Proof.
  intros H. apply delete_run_none. intros run _. unfold id_is.
  destruct (parseInt_string id_param); try discriminate H. apply eqb_NaN.
Qed.

Lemma delete_not_a_number_witness :
  delete_run "abc" runs = (runs, NotFound "Run not found").
Proof. apply (delete_not_a_number "abc" runs). reflexivity. Defined.

(** X12: text after the digits of the id parameter is ignored: the digits
    of [n] followed by a character that is no decimal digit (and is not
    the x of a hexadecimal prefix after a lone 0) and by anything else are
    handled as the digits alone. *)
Theorem delete_ignores_trailing_text (n : Z) (x : ascii) (r : string) (store : list Run.t) :
  0 <= n -> digit_value 10 x = None ->
  (n = 0 -> code x <> 120 /\ code x <> 88) ->
  delete_run (digit_string n +:+ String x r) store = delete_run (digit_string n) store.
Proof.
  intros Hn Hx H0. unfold delete_run.
  rewrite parseInt_trailing, parseInt_digit_string by assumption. reflexivity.
Qed.

Lemma delete_ignores_trailing_text_witness :
  delete_run (digit_string 2 +:+ String "a" "bc") runs = delete_run (digit_string 2) runs.
Proof.
  apply (delete_ignores_trailing_text 2 "a" "bc" runs).
  - lia.
  - reflexivity.
  - intros H. discriminate H.
Defined.

(** X13: in a store whose ids are the positions (shorter than 2^53), the
    decimal id parameter [n] takes out the record at position [n] when
    there is one, and is answered 404 otherwise. *)
Theorem delete_in_sequential_store (n : Z) (store : list Run.t) :
  sequential store -> Z.of_nat (length store) < 2 ^ 53 -> 0 < n < 2 ^ 53 ->
  delete_run (digit_string n) store
  = if n <=? Z.of_nat (length store)
    then (delete (Z.to_nat (n - 1)) store, NoContent)
    else (store, NotFound "Run not found").
Proof.
  intros Hseq Hlen Hn.
  pose proof (sequential_exact_ids store Hseq Hlen) as Hids.
  destruct (Z.leb_spec n (Z.of_nat (length store))) as [Hle|Hgt].
  - destruct (lookup_lt_is_Some_2 store (Z.to_nat (n - 1))) as [run Hrun]; [lia|].
    rewrite delete_take_drop.
    rewrite <- (take_drop_middle store (Z.to_nat (n - 1)) run Hrun) at 1.
    apply delete_decimal_found.
    + exact Hn.
    + rewrite take_drop_middle by exact Hrun. exact Hids.
    + rewrite (Hseq _ _ Hrun). lia.
    + intros r Hin. apply list_elem_of_lookup in Hin as [i Hi].
      pose proof (lookup_lt_Some _ _ _ Hi) as Hlt. rewrite length_take in Hlt.
      rewrite lookup_take_lt in Hi by lia. rewrite (Hseq _ _ Hi). lia.
  - apply delete_decimal_missing; [lia | exact Hids |].
    intros run Hin. apply list_elem_of_lookup in Hin as [i Hi].
    pose proof (lookup_lt_Some _ _ _ Hi). rewrite (Hseq i run Hi). lia.
Qed.

Lemma delete_in_sequential_store_witness :
  delete_run (digit_string 2) runs
  = if 2 <=? Z.of_nat (length runs)
    then (delete (Z.to_nat (2 - 1)) runs, NoContent)
    else (runs, NotFound "Run not found").
Proof.
  apply (delete_in_sequential_store 2 runs).
  - exact seeds_sequential.
  - simpl. lia.
  - lia.
Defined.

(** X14: a successful delete by decimal id takes out one record with that
    id and no record with another id: the records with other ids are the
    same list before and after, and the records with that id are one
    fewer. *)
Theorem delete_touches_one_id (n : Z) (store store' : list Run.t) :
  0 < n < 2 ^ 53 -> exact_ids store ->
  delete_run (digit_string n) store = (store', NoContent) ->
  filter (fun r => Run.id r <> n) store' = filter (fun r => Run.id r <> n) store
  /\ S (length (filter (fun r => Run.id r = n) store'))
     = length (filter (fun r => Run.id r = n) store).
Proof.
  intros Hn Hids Hd.
  destruct (delete_run_cases (digit_string n) store)
    as [[_ H]|(i & run & Hl & Hr & _ & H)]; rewrite H in Hd; [discriminate Hd|].
  injection Hd as <-.
  apply id_is_decimal in Hr; [|exact Hn|apply Hids, list_elem_of_lookup; eauto].
  rewrite delete_take_drop.
  rewrite <- (take_drop_middle store i run Hl) at 3 6.
  rewrite !filter_app, !filter_cons.
  destruct (decide (Run.id run <> n)) as [Hne|_]; [congruence|].
  destruct (decide (Run.id run = n)) as [_|Hne]; [|congruence].
  split; [reflexivity|]. rewrite !length_app. simpl. lia.
Qed.

Lemma delete_touches_one_id_witness :
  filter (fun r => Run.id r <> 1) [second_seed] = filter (fun r => Run.id r <> 1) runs
  /\ S (length (filter (fun r => Run.id r = 1) [second_seed]))
     = length (filter (fun r => Run.id r = 1) runs).
Proof.
  apply (delete_touches_one_id 1 runs [second_seed]).
  - lia.
  - exact seeds_exact_ids.
  - vm_compute. reflexivity.
Defined.

(** X15: when one record alone has the id, deleting it twice answers 204
    and then 404, and the store after both is the store without that
    record. *)
Theorem second_delete_is_not_found (n : Z) (pre post : list Run.t) (run : Run.t) :
  0 < n < 2 ^ 53 -> exact_ids (pre ++ run :: post) -> Run.id run = n ->
  (forall r : Run.t, r ∈ pre ++ post -> Run.id r <> n) ->
  serve [DELETE_run (digit_string n); DELETE_run (digit_string n)] (pre ++ run :: post)
  = (pre ++ post, [NoContent; NotFound "Run not found"]).
Proof.
  intros Hn Hids Hrun Hothers. cbn [serve handle].
  rewrite (delete_decimal_found n pre post run Hn Hids Hrun).
  2:{ intros r Hin. apply Hothers, elem_of_app. left. exact Hin. }
  rewrite delete_decimal_missing; [reflexivity | lia | | exact Hothers].
  intros r Hin. apply Hids. apply elem_of_app in Hin as [Hin|Hin]; apply elem_of_app;
    [left; exact Hin | right; apply list_elem_of_further; exact Hin].
Qed.

Lemma second_delete_is_not_found_witness :
  serve [DELETE_run (digit_string 1); DELETE_run (digit_string 1)]
    ([] ++ first_seed :: [second_seed])
  = ([] ++ [second_seed], [NoContent; NotFound "Run not found"]).
Proof.
  apply (second_delete_is_not_found 1 [] [second_seed] first_seed).
  - lia.
  - exact seeds_exact_ids.
  - reflexivity.
  - intros r Hin. apply list_elem_of_singleton in Hin as ->.
    unfold second_seed. cbn [Run.id]. lia.
Defined.

(** X16: deletes by two different decimal ids commute: whichever comes
    first, the store after both is the same. *)
Theorem deletes_of_different_ids_commute (n m : Z) (store : list Run.t) :
  0 < n < 2 ^ 53 -> 0 < m < 2 ^ 53 -> n <> m -> exact_ids store ->
  fst (serve [DELETE_run (digit_string n); DELETE_run (digit_string m)] store)
  = fst (serve [DELETE_run (digit_string m); DELETE_run (digit_string n)] store).
Proof.
  intros Hn Hm Hne Hids. rewrite !serve_cons. cbn [fst serve handle].
  apply deletes_commute_disjoint. intros run Hin Hp.
  destruct (id_is (parseInt_string (digit_string m)) run) eqn:Hq; [|reflexivity].
  apply id_is_decimal in Hp, Hq; auto. congruence.
Qed.

Lemma deletes_of_different_ids_commute_witness :
  fst (serve [DELETE_run (digit_string 1); DELETE_run (digit_string 2)] runs)
  = fst (serve [DELETE_run (digit_string 2); DELETE_run (digit_string 1)] runs).
Proof.
  apply (deletes_of_different_ids_commute 1 2 runs).
  - lia.
  - lia.
  - lia.
  - exact seeds_exact_ids.
Defined.

(** *** Create and delete together *)

(** X17: deleting by the id that a create returned, written in decimal,
    undoes the create, provided no older record has that id (ids below
    2^53). *)
Theorem delete_undoes_create (body : Body.t) (store store' : list Run.t) (newRun : Run.t) :
  post_runs body store = (store', Created newRun) ->
  Z.of_nat (length store) + 1 < 2 ^ 53 -> exact_ids store ->
  (forall run : Run.t, run ∈ store -> Run.id run <> Run.id newRun) ->
  delete_run (digit_string (Run.id newRun)) store' = (store, NoContent).
Proof.
  intros H Hlen Hids Hfresh. apply post_runs_created in H as (-> & Hid & _).
  rewrite <- (app_nil_r store) at 2.
  apply delete_decimal_found; [lia | | reflexivity | exact Hfresh].
  intros r Hin. apply elem_of_app in Hin as [Hin|Hin]; [exact (Hids r Hin)|].
  apply list_elem_of_singleton in Hin as ->. lia.
Qed.

Lemma delete_undoes_create_witness :
  delete_run (digit_string (Run.id example_run)) (runs ++ [example_run]) = (runs, NoContent).
Proof.
  apply (delete_undoes_create example_body runs (runs ++ [example_run]) example_run).
  - vm_compute. reflexivity.
  - simpl. lia.
  - exact seeds_exact_ids.
  - intros run Hin. rewrite runs_seeds in Hin.
    apply elem_of_cons in Hin as [->|Hin];
      [unfold first_seed, example_run; cbn [Run.id]; lia|].
    apply list_elem_of_singleton in Hin as ->.
    unfold second_seed, example_run. cbn [Run.id]. lia.
Defined.

(** X18: when the newest record has the id that the length-based rule
    gave it (the length of the store), deleting any other record and then
    creating a run gives the new record the id of the newest one: the two
    end up next to each other at the end of the store with the same id. *)
Theorem delete_then_create_duplicates (id_param : string) (body : Body.t)
    (pre : list Run.t) (newest : Run.t) (store1 store2 : list Run.t) (newRun : Run.t) :
  Run.id newest = Z.of_nat (length (pre ++ [newest])) ->
  id_is (parseInt_string id_param) newest = false ->
  delete_run id_param (pre ++ [newest]) = (store1, NoContent) ->
  post_runs body store1 = (store2, Created newRun) ->
  Run.id newRun = Run.id newest
  /\ exists pre' : list Run.t, store2 = pre' ++ [newest; newRun].
Proof.
  intros Hid Hnot Hdel Hpost.
  destruct (delete_run_cases id_param (pre ++ [newest]))
    as [[_ H]|(i & run & Hl & Hr & _ & H)]; rewrite H in Hdel; [discriminate Hdel|].
  injection Hdel as <-.
  assert (Hi : (i < length pre)%nat).
  { pose proof (lookup_lt_Some _ _ _ Hl) as Hlt. rewrite length_app in Hlt. simpl in Hlt.
    destruct (decide (i = length pre)) as [->|Hne]; [|lia].
    rewrite list_lookup_middle in Hl by reflexivity. injection Hl as <-. congruence. }
  rewrite delete_take_drop in Hpost.
  rewrite take_app_le, drop_app_le in Hpost by lia.
  apply post_runs_created in Hpost as (-> & Hnew & _).
  split.
  - rewrite Hnew, Hid. rewrite !length_app, length_take, length_drop. simpl. lia.
  - exists (take i pre ++ drop (S i) pre). rewrite <- !app_assoc. reflexivity.
Qed.

Lemma delete_then_create_duplicates_witness :
  Run.id reused_run = Run.id second_seed
  /\ exists pre' : list Run.t, [second_seed; reused_run] = pre' ++ [second_seed; reused_run].
Proof.
  apply (delete_then_create_duplicates "1" example_body [first_seed] second_seed
           [second_seed] [second_seed; reused_run] reused_run).
  - reflexivity.
  - vm_compute. reflexivity.
  - vm_compute. reflexivity.
  - vm_compute. reflexivity.
Defined.
